(** * Listening-session tracking of the Stream Checker web frontend

    A shallow embedding of the "Listen Live" player of the frontend script
    (the second [DOMContentLoaded] closure that owns [listeningStartTime],
    [currentStreamUrl] and [pauseTriggeredByButton]) together with the
    part of [handleStreamCheck] that touches the audio element.

    The script is event driven.  A handler runs to its first [await] on a
    network call; what is left of it is kept as a suspended task and runs
    when the call settles.  An [await] on a promise that is already
    settled resumes in a microtask, before any other event, so such a
    handler is one step here.  The page is therefore a state, an event is
    a step on it, and a run is a list of time-stamped events.

    Dates are epoch milliseconds ([Z]); [toISOString] is an injective
    rendering of them and is left out.  Styling, the time display and the
    result templates neither read nor write anything modelled here. *)

From Stdlib Require Import ZArith QArith List String Ascii Bool Lia.
Import ListNotations.
Local Open Scope string_scope.
Local Open Scope Z_scope.

(** ** Strings as the script uses them *)

(** A string of the script is kept as the bytes of its UTF-8 encoding.

    [String.prototype.trim] removes the white space and the line
    terminators of ECMAScript from both ends.  In one byte these are
    TAB, LF, VT, FF, CR and SPACE. *)
Definition isWhiteSpace (c : ascii) : bool :=
  let n := nat_of_ascii c in
  ((n =? 32) || ((9 <=? n) && (n <=? 13)))%nat.

(** In two bytes: U+00A0, the no-break space. *)
Definition isWhiteSpace2 (c1 c2 : ascii) : bool :=
  ((nat_of_ascii c1 =? 194) && (nat_of_ascii c2 =? 160))%nat.

(** In three bytes: U+1680, U+2000 to U+200A, the line and paragraph
    separators U+2028 and U+2029, U+202F, U+205F, U+3000 and the byte
    order mark U+FEFF. *)
Definition isWhiteSpace3 (c1 c2 c3 : ascii) : bool :=
  let n1 := nat_of_ascii c1 in
  let n2 := nat_of_ascii c2 in
  let n3 := nat_of_ascii c3 in
  (((n1 =? 225) && (n2 =? 154) && (n3 =? 128))
   || ((n1 =? 226) && (n2 =? 128) &&
       (((128 <=? n3) && (n3 <=? 138)) || (n3 =? 168) || (n3 =? 169)
        || (n3 =? 175)))
   || ((n1 =? 226) && (n2 =? 129) && (n3 =? 159))
   || ((n1 =? 227) && (n2 =? 128) && (n3 =? 128))
   || ((n1 =? 239) && (n2 =? 187) && (n3 =? 191)))%nat.

(** [trimStart]: white-space characters are dropped from the front, of
    whatever length in bytes, up to the first character that is none. *)
Fixpoint trimStart (s : string) : string :=
  match s with
  | EmptyString => EmptyString
  | String c1 r1 =>
      if isWhiteSpace c1 then trimStart r1
      else
        match r1 with
        | EmptyString => s
        | String c2 r2 =>
            if isWhiteSpace2 c1 c2 then trimStart r2
            else
              match r2 with
              | EmptyString => s
              | String c3 r3 =>
                  if isWhiteSpace3 c1 c2 c3 then trimStart r3 else s
              end
        end
  end.

(** A string is blank when it holds white-space characters only, so
    that [trim] has nothing to keep. *)
Fixpoint blank (s : string) : bool :=
  match s with
  | EmptyString => true
  | String c1 r1 =>
      if isWhiteSpace c1 then blank r1
      else
        match r1 with
        | EmptyString => false
        | String c2 r2 =>
            if isWhiteSpace2 c1 c2 then blank r2
            else
              match r2 with
              | EmptyString => false
              | String c3 r3 =>
                  if isWhiteSpace3 c1 c2 c3 then blank r3 else false
              end
        end
  end.

(** [trimEnd]: what is left when the longest blank end is cut off.  No
    white-space character begins with a byte that continues another
    character, so a blank end starts where a character starts. *)
Fixpoint trimEnd (s : string) : string :=
  match s with
  | EmptyString => EmptyString
  | String c r => if blank s then EmptyString else String c (trimEnd r)
  end.

Definition trim (s : string) : string := trimEnd (trimStart s).

(** JS truthiness of a string and of a string-or-null variable. *)
Definition nonEmpty (s : string) : bool := negb (s =? "")%string.

Definition truthy (o : option string) : bool :=
  match o with
  | Some s => nonEmpty s
  | None => false
  end.

(** [s.split('/').pop()]: what follows the last slash. *)
Fixpoint splitPop (acc s : string) : string :=
  match s with
  | EmptyString => acc
  | String c r =>
      if Ascii.eqb c "/"%char then splitPop EmptyString r
      else splitPop (acc ++ String c EmptyString) r
  end.

(** [hay.includes(needle)]. *)
Fixpoint includes (needle hay : string) : bool :=
  prefix needle hay ||
  match hay with
  | EmptyString => false
  | String _ r => includes needle r
  end.

(** ** Data *)

Inductive MediaError :=
| MEDIA_ERR_ABORTED
| MEDIA_ERR_NETWORK
| MEDIA_ERR_DECODE
| MEDIA_ERR_SRC_NOT_SUPPORTED
| MEDIA_ERR_OTHER.

(** The attributes of the [<audio id="streamPlayer">] element that the
    script reads or writes. *)
Record Audio := mkAudio {
  src : string;
  paused : bool;
  ended : bool;
  currentTime : Z;
  volume : Q;
  muted : bool;
  error : option MediaError
}.

(** Calls made on the audio element, oldest first. *)
Inductive PrimCall :=
| CallSetSrc (url : string)
| CallPlay
| CallPause
| CallSeekZero
| CallSetVolume (v : Q)
| CallSetMuted (m : bool).

Inductive Status :=
| Ready | Loading | Playing | Paused | Stopped | Ended | Error.

Inductive ActionType := pause | stop.

(** The JSON body posted to [/listening/log]. *)
Record LogData := mkLogData {
  stream_url : string;
  start_timestamp : Z;
  end_timestamp : Z;
  listening_time_seconds : Q;
  action_type : ActionType
}.

(** One POST to the logging endpoint and whether it was made with
    [keepalive: true]. *)
Record Delivery := mkDelivery {
  body : LogData;
  keepalive : bool
}.

(** Who is waiting on a suspended [logListeningSession]. *)
Inductive Caller :=
| ByPauseBtn
| ByStopBtn
| ByEnded
| ByError
| Unawaited.

(** A suspended call waits on [fetch], then on reading the body. *)
Inductive Phase := AwaitFetch | AwaitBody.

(** The locals [handleStreamCheck] saves before it submits. *)
Record Snapshot := mkSnapshot {
  wasPlaying : bool;
  currentSrc : string;
  savedTime : Z;
  currentVolume : Q;
  wasMuted : bool
}.

Inductive Task :=
| LogTask (c : Caller) (p : Phase)
| CheckTask (snap : Snapshot) (p : Phase).

(** How an awaited promise settles; [ok] is [response.ok]. *)
Inductive Settled :=
| Rejected
| Fulfilled (ok : bool).

(** The page: the closure variables of the player, the audio element,
    what the user sees, and what has been sent or is still in flight. *)
Record State := mkState {
  isPlaying : bool;
  currentPlayingUrl : option string;
  isPlayerInitialized : bool;
  listeningStartTime : option Z;
  currentStreamUrl : option string;
  isLoggingInProgress : bool;
  pauseTriggeredByButton : bool;
  streamPlayer : Audio;
  playerStatus : Status;
  playerError : option string;
  submitDisabled : bool;
  alerts : list string;
  primCalls : list PrimCall;
  sent : list Delivery;
  pending : list Task
}.

Definition set_isPlaying (v : bool) (s : State) : State :=
  let '(mkState _ b c d e f g h i j k l m n o) := s in mkState v b c d e f g h i j k l m n o.
Definition set_currentPlayingUrl (v : option string) (s : State) : State :=
  let '(mkState a _ c d e f g h i j k l m n o) := s in mkState a v c d e f g h i j k l m n o.
Definition set_isPlayerInitialized (v : bool) (s : State) : State :=
  let '(mkState a b _ d e f g h i j k l m n o) := s in mkState a b v d e f g h i j k l m n o.
Definition set_listeningStartTime (v : option Z) (s : State) : State :=
  let '(mkState a b c _ e f g h i j k l m n o) := s in mkState a b c v e f g h i j k l m n o.
Definition set_currentStreamUrl (v : option string) (s : State) : State :=
  let '(mkState a b c d _ f g h i j k l m n o) := s in mkState a b c d v f g h i j k l m n o.
Definition set_pauseTriggeredByButton (v : bool) (s : State) : State :=
  let '(mkState a b c d e f _ h i j k l m n o) := s in mkState a b c d e f v h i j k l m n o.
Definition set_streamPlayer (v : Audio) (s : State) : State :=
  let '(mkState a b c d e f g _ i j k l m n o) := s in mkState a b c d e f g v i j k l m n o.
Definition set_playerStatus (v : Status) (s : State) : State :=
  let '(mkState a b c d e f g h _ j k l m n o) := s in mkState a b c d e f g h v j k l m n o.
Definition set_playerError (v : option string) (s : State) : State :=
  let '(mkState a b c d e f g h i _ k l m n o) := s in mkState a b c d e f g h i v k l m n o.
Definition set_submitDisabled (v : bool) (s : State) : State :=
  let '(mkState a b c d e f g h i j _ l m n o) := s in mkState a b c d e f g h i j v l m n o.
Definition set_alerts (v : list string) (s : State) : State :=
  let '(mkState a b c d e f g h i j k _ m n o) := s in mkState a b c d e f g h i j k v m n o.
Definition set_primCalls (v : list PrimCall) (s : State) : State :=
  let '(mkState a b c d e f g h i j k l _ n o) := s in mkState a b c d e f g h i j k l v n o.
Definition set_sent (v : list Delivery) (s : State) : State :=
  let '(mkState a b c d e f g h i j k l m _ o) := s in mkState a b c d e f g h i j k l m v o.
Definition set_pending (v : list Task) (s : State) : State :=
  let '(mkState a b c d e f g h i j k l m n _) := s in mkState a b c d e f g h i j k l m n v.

(** The closure variables of the player, which no code outside the
    closure can name. *)
Definition closureVars (s : State) :=
  (isPlaying s, currentPlayingUrl s, isPlayerInitialized s,
   listeningStartTime s, currentStreamUrl s, isLoggingInProgress s,
   pauseTriggeredByButton s).

(** The tracker is ACTIVE when a start time and a stream URL are held. *)
Definition active (s : State) : bool :=
  match listeningStartTime s with
  | Some _ => truthy (currentStreamUrl s)
  | None => false
  end.

(** The page as the script finds it: nothing loaded, nothing tracked. *)
Definition initialAudio : Audio :=
  mkAudio "" true false 0 1%Q false None.

Definition initialState : State :=
  mkState false None false None None false false initialAudio Ready None
          false [] [] [] [].

(** ** The player *)

Module Player.

Section WithBrowser.

(** Reading [streamPlayer.src] gives the URL the browser resolved the
    assigned string to; the resolution belongs to the browser. *)
Variable resolveUrl : string -> string.

(** *** Calls on the audio element

    Assigning [src] starts the element's load algorithm, which clears the
    error, rewinds and leaves the element paused; [play()] and [pause()]
    set [paused] at once and report to the script later, through the play
    promise and the native events.  On an element whose source was found
    unusable [play()] changes nothing: it returns a promise that is
    rejected. *)

Definition called (c : PrimCall) (s : State) : State :=
  set_primCalls (primCalls s ++ [c]) s.

Definition assignSrc (url : string) (s : State) : State :=
  let a := streamPlayer s in
  called (CallSetSrc url)
    (set_streamPlayer
       (mkAudio (resolveUrl url) true false 0 (volume a) (muted a) None) s).

Definition sourceUnusable (a : Audio) : bool :=
  match error a with
  | Some MEDIA_ERR_SRC_NOT_SUPPORTED => true
  | _ => false
  end.

Definition callPlay (s : State) : State :=
  let a := streamPlayer s in
  let stillPaused := if sourceUnusable a then paused a else false in
  called CallPlay
    (set_streamPlayer
       (mkAudio (src a) stillPaused (ended a) (currentTime a) (volume a)
                (muted a) (error a)) s).

Definition callPause (s : State) : State :=
  let a := streamPlayer s in
  called CallPause
    (set_streamPlayer
       (mkAudio (src a) true (ended a) (currentTime a) (volume a) (muted a)
                (error a)) s).

Definition seekZero (s : State) : State :=
  let a := streamPlayer s in
  called CallSeekZero
    (set_streamPlayer
       (mkAudio (src a) (paused a) (ended a) 0 (volume a) (muted a)
                (error a)) s).

Definition assignVolume (v : Q) (s : State) : State :=
  let a := streamPlayer s in
  called (CallSetVolume v)
    (set_streamPlayer
       (mkAudio (src a) (paused a) (ended a) (currentTime a) v (muted a)
                (error a)) s).

Definition assignMuted (m : bool) (s : State) : State :=
  let a := streamPlayer s in
  called (CallSetMuted m)
    (set_streamPlayer
       (mkAudio (src a) (paused a) (ended a) (currentTime a) (volume a) m
                (error a)) s).

(** *** Status line *)

Definition updateStatus (st : Status) (s : State) : State :=
  set_playerStatus st s.

Definition showError (message : string) (s : State) : State :=
  updateStatus Error (set_playerError (Some message) s).

Definition hideError (s : State) : State :=
  set_playerError None s.

(** *** logListeningSession *)

(** [(endTime - listeningStartTime) / 1000].  The difference of two dates
    is a whole number of milliseconds and the division is correctly
    rounded, so comparing the quotient with the double [0.1] agrees with
    the comparison of the rationals. *)
Definition listeningTimeSeconds (start endTime : Z) : Q :=
  (inject_Z (endTime - start) / inject_Z 1000)%Q.

Definition minimumSeconds : Q := (1 # 10)%Q.

Definition Qltb (x y : Q) : bool := negb (Qle_bool y x).

(** Whether the call ran to its end or stopped at an [await] on the
    network.  With [sync] set the request is made with [keepalive] and
    is not awaited; its [then] and [catch] only write to the console.
    [fetch] reports failure through the promise it returns, so the
    [try] around that call has nothing to catch and the call returns.
    Without [sync] the function awaits the request and then the body of
    the response, and resets [listeningStartTime] only after that. *)
Inductive Completion := Returned | Suspended.

Definition logListeningSession
    (now : Z) (actionType : ActionType) (sync : bool) (c : Caller)
    (s : State) : State * Completion :=
  match listeningStartTime s, currentStreamUrl s with
  | Some start, Some url =>
      if nonEmpty url then
        let secs := listeningTimeSeconds start now in
        if Qltb secs minimumSeconds then
          (set_listeningStartTime None s, Returned)
        else
          let logData := mkLogData url start now secs actionType in
          if sync then
            (set_listeningStartTime None
               (set_sent (sent s ++ [mkDelivery logData true]) s),
             Returned)
          else
            (set_pending (pending s ++ [LogTask c AwaitFetch])
               (set_sent (sent s ++ [mkDelivery logData false]) s),
             Suspended)
      else (s, Returned)
  | _, _ => (s, Returned)
  end.

(** What runs once the awaited calls of the regular path have settled:
    the reset at the end of [logListeningSession]. *)
Definition logListeningSessionEnd (s : State) : State :=
  set_listeningStartTime None s.

(** *** Handlers: the part after [await logListeningSession(...)] *)

Definition pauseBtnResume (s : State) : State :=
  updateStatus Paused (set_isPlaying false (callPause s)).

Definition stopBtnResume (s : State) : State :=
  updateStatus Stopped
    (set_isPlayerInitialized false
       (set_currentStreamUrl None
          (set_currentPlayingUrl None
             (set_isPlaying false (seekZero (callPause s)))))).

Definition endedResume (s : State) : State :=
  set_currentStreamUrl None (updateStatus Ended (set_isPlaying false s)).

Definition errorMessage (e : option MediaError) : string :=
  match e with
  | None => "Unable to play stream"
  | Some MEDIA_ERR_ABORTED => "Playback aborted"
  | Some MEDIA_ERR_NETWORK => "Network error - check your connection"
  | Some MEDIA_ERR_DECODE => "Stream format not supported or corrupted"
  | Some MEDIA_ERR_SRC_NOT_SUPPORTED => "Stream format not supported by browser"
  | Some MEDIA_ERR_OTHER => "Unknown error occurred"
  end.

Definition errorResume (s : State) : State :=
  updateStatus Error
    (showError (errorMessage (error (streamPlayer s)))
       (set_currentStreamUrl None (set_isPlaying false s))).

Definition resume (c : Caller) (s : State) : State :=
  match c with
  | ByPauseBtn => pauseBtnResume s
  | ByStopBtn => stopBtnResume s
  | ByEnded => endedResume s
  | ByError => errorResume s
  | Unawaited => s
  end.

(** [await logListeningSession(actionType)] followed by the rest of the
    handler. *)
Definition awaitLog (now : Z) (actionType : ActionType) (c : Caller)
    (s : State) : State :=
  match logListeningSession now actionType false c s with
  | (s', Returned) => resume c s'
  | (s', Suspended) => s'
  end.

(** *** Handlers, from their first line *)

Definition playBtnClick (now : Z) (value : string) (s : State) : State :=
  let url := trim value in
  if negb (nonEmpty url) then showError "Please enter a stream URL first" s
  else
    let s := hideError s in
    let needsNewSource :=
      negb (truthy (currentPlayingUrl s)) ||
      match currentPlayingUrl s with
      | Some c => negb (c =? url)%string
      | None => true
      end in
    let s :=
      if needsNewSource then
        set_isPlayerInitialized true
          (assignSrc url (set_currentPlayingUrl (Some url) s))
      else s in
    let s :=
      match listeningStartTime s with
      | None => set_currentStreamUrl (Some url)
                  (set_listeningStartTime (Some now) s)
      | Some _ => s
      end in
    callPlay s.

(** The play promise, fulfilled. *)
Definition playFulfilled (s : State) : State :=
  updateStatus Playing (set_isPlaying true s).

(** The play promise, rejected with [error.message]. *)
Definition playRejected (message : option string) (s : State) : State :=
  let text := match message with
              | Some m => if nonEmpty m then m else "Unknown error"
              | None => "Unknown error"
              end in
  set_listeningStartTime None
    (updateStatus Error (showError ("Unable to play stream: " ++ text) s)).

Definition pauseBtnClick (now : Z) (s : State) : State :=
  awaitLog now pause ByPauseBtn (set_pauseTriggeredByButton true s).

Definition stopBtnClick (now : Z) (s : State) : State :=
  awaitLog now stop ByStopBtn s.

Definition onPlaying (now : Z) (s : State) : State :=
  let s := updateStatus Playing (set_isPlaying true s) in
  let s :=
    if nonEmpty (src (streamPlayer s)) then
      set_isPlayerInitialized true
        (set_currentStreamUrl (Some (src (streamPlayer s)))
           (set_currentPlayingUrl (Some (src (streamPlayer s))) s))
    else s in
  match listeningStartTime s with
  | None => if truthy (currentStreamUrl s)
            then set_listeningStartTime (Some now) s else s
  | Some _ => s
  end.

Definition onPause (now : Z) (s : State) : State :=
  let s :=
    match pauseTriggeredByButton s, listeningStartTime s with
    | false, Some _ => fst (logListeningSession now pause false Unawaited s)
    | _, _ => s
    end in
  let s := set_isPlaying false (set_pauseTriggeredByButton false s) in
  if (currentTime (streamPlayer s) =? 0)%Z
  then updateStatus Stopped s else updateStatus Paused s.

Definition onEnded (now : Z) (s : State) : State :=
  awaitLog now stop ByEnded s.

Definition onError (now : Z) (s : State) : State :=
  match listeningStartTime s with
  | Some _ => awaitLog now stop ByError s
  | None => errorResume s
  end.

Definition onBeforeUnload (now : Z) (s : State) : State :=
  match listeningStartTime s with
  | Some _ =>
      if truthy (currentStreamUrl s)
      then fst (logListeningSession now stop true Unawaited s) else s
  | None => s
  end.

Definition onVisibilityChange (now : Z) (hidden : bool) (s : State) : State :=
  match hidden, listeningStartTime s with
  | true, Some _ =>
      if truthy (currentStreamUrl s)
      then fst (logListeningSession now pause true Unawaited s) else s
  | _, _ => s
  end.

Definition onVolumeInput (v : Q) (s : State) : State := assignVolume v s.

Definition muteBtnClick (s : State) : State :=
  assignMuted (negb (muted (streamPlayer s))) s.

End WithBrowser.

End Player.

(** ** The stream check form *)

Module StreamCheck.

Import Player.

(** What [handleStreamCheck] finds in the document when it runs: the URL
    field (absent or its value), the values of the checked test boxes,
    the ad-detection duration field (absent, or [parseInt] of its value,
    [None] for NaN) and whether the status and result elements exist. *)
Record CheckForm := mkCheckForm {
  urlInput : option string;
  checkedTests : list string;
  adDurationInput : option (option Z);
  statusElements : bool
}.

Definition alert (message : string) (s : State) : State :=
  set_alerts (alerts s ++ [message]) s.

(** [duration && duration >= 10 && duration <= 300]. *)
Definition durationAccepted (d : option Z) : bool :=
  match d with
  | Some n => negb (n =? 0) && (10 <=? n) && (n <=? 300)
  | None => false
  end.

Definition saveAudioState (a : Audio) : Snapshot :=
  mkSnapshot (negb (paused a) && negb (ended a)) (src a) (currentTime a)
             (volume a) (muted a).

(** From the first line to the [await fetch] of the check request.  The
    early returns come before the [try], so they skip the [finally]. *)
Definition handleStreamCheck (form : CheckForm) (s : State) : State :=
  let snap := saveAudioState (streamPlayer s) in
  match urlInput form with
  | None => s
  | Some value =>
      let url := trim value in
      if negb (nonEmpty url) then alert "Please enter a stream URL" s
      else
        let adSelected :=
          existsb (String.eqb "ad_detection") (checkedTests form) in
        let adRejected :=
          match adDurationInput form with
          | Some d => negb (durationAccepted d)
          | None => false
          end in
        if adSelected && adRejected then
          alert "Ad detection duration must be between 10 and 300 seconds." s
        else
          match checkedTests form with
          | [] => alert "Please select at least one test to run." s
          | _ :: _ =>
              let s := set_submitDisabled true s in
              if statusElements form then
                set_pending (pending s ++ [CheckTask snap AwaitFetch]) s
              else
                alert "Error: Page elements not loaded. Please refresh the page."
                  (set_submitDisabled false s)
          end
  end.

(** [audioPlayer.src === currentSrc || audioPlayer.src === '' ||
    !audioPlayer.src || (currentSrc &&
    audioPlayer.src.includes(currentSrc.split('/').pop()))]. *)
Definition srcMatches (a : Audio) (snap : Snapshot) : bool :=
  (src a =? currentSrc snap)%string ||
  (src a =? "")%string ||
  negb (nonEmpty (src a)) ||
  (nonEmpty (currentSrc snap) &&
   includes (splitPop EmptyString (currentSrc snap)) (src a)).

(** The [finally] block, once the request and its body have settled. *)
Definition handleStreamCheckFinally (snap : Snapshot) (s : State) : State :=
  let s := set_submitDisabled false s in
  if wasPlaying snap && nonEmpty (currentSrc snap) then
    if srcMatches (streamPlayer s) snap then
      let s := assignMuted (wasMuted snap)
                 (assignVolume (currentVolume snap) s) in
      if paused (streamPlayer s) && wasPlaying snap then callPlay s else s
    else s
  else s.

End StreamCheck.

(** ** Events and runs *)

Import Player StreamCheck.

Inductive Event :=
| PlayClick (value : string)
| PlayFulfilled
| PlayRejected (message : option string)
| PauseClick
| StopClick
| VolumeInput (v : Q)
| MuteClick
| NativeLoadStart
| NativeCanPlay
| NativePlaying
| NativePause
| NativeEnded
| NativeError (code : MediaError)
| NativeTimeUpdate (position : Z)
| BeforeUnload
| VisibilityChange (hidden : bool)
| ErrorTimeout
| CheckSubmit (form : CheckForm)
| Settle (i : nat) (r : Settled).

Fixpoint removeAt {A} (i : nat) (l : list A) : list A :=
  match l, i with
  | [], _ => []
  | _ :: r, O => r
  | x :: r, S j => x :: removeAt j r
  end.

Fixpoint replaceAt {A} (i : nat) (y : A) (l : list A) : list A :=
  match l, i with
  | [], _ => []
  | _ :: r, O => y :: r
  | x :: r, S j => x :: replaceAt j y r
  end.

(** What the element looks like when it reports an event. *)
Definition elementNow (f : Audio -> Audio) (s : State) : State :=
  set_streamPlayer (f (streamPlayer s)) s.

Definition nowPaused (p : bool) (a : Audio) : Audio :=
  mkAudio (src a) p (ended a) (currentTime a) (volume a) (muted a) (error a).

Definition nowEnded (a : Audio) : Audio :=
  mkAudio (src a) (paused a) true (currentTime a) (volume a) (muted a) (error a).

Definition nowFailed (code : MediaError) (a : Audio) : Audio :=
  mkAudio (src a) (paused a) (ended a) (currentTime a) (volume a) (muted a)
          (Some code).

Definition nowAt (position : Z) (a : Audio) : Audio :=
  mkAudio (src a) (paused a) (ended a) position (volume a) (muted a) (error a).

(** The [i]-th suspended task gets the result it waits for.  A task that
    waited on [fetch] and got a response goes on to wait for the body; a
    rejection, or the body, ends the waiting and the rest of the function
    runs. *)
Definition settle (i : nat) (r : Settled) (s : State) : State :=
  match nth_error (pending s) i with
  | None => s
  | Some (LogTask c AwaitFetch) =>
      match r with
      | Rejected =>
          resume c (logListeningSessionEnd
                      (set_pending (removeAt i (pending s)) s))
      | Fulfilled _ =>
          set_pending (replaceAt i (LogTask c AwaitBody) (pending s)) s
      end
  | Some (LogTask c AwaitBody) =>
      resume c (logListeningSessionEnd
                  (set_pending (removeAt i (pending s)) s))
  | Some (CheckTask snap AwaitFetch) =>
      match r with
      | Rejected =>
          handleStreamCheckFinally snap
            (set_pending (removeAt i (pending s)) s)
      | Fulfilled _ =>
          set_pending (replaceAt i (CheckTask snap AwaitBody) (pending s)) s
      end
  | Some (CheckTask snap AwaitBody) =>
      handleStreamCheckFinally snap (set_pending (removeAt i (pending s)) s)
  end.

Section WithBrowser.

Variable resolveUrl : string -> string.

(** One event, handled at wall-clock time [now]. *)
Definition step (now : Z) (e : Event) (s : State) : State :=
  match e with
  | PlayClick value => playBtnClick resolveUrl now value s
  | PlayFulfilled => playFulfilled s
  | PlayRejected message => playRejected message s
  | PauseClick => pauseBtnClick now s
  | StopClick => stopBtnClick now s
  | VolumeInput v => onVolumeInput v s
  | MuteClick => muteBtnClick s
  | NativeLoadStart => hideError (updateStatus Loading s)
  | NativeCanPlay => updateStatus Ready s
  | NativePlaying => onPlaying now (elementNow (nowPaused false) s)
  | NativePause => onPause now (elementNow (nowPaused true) s)
  | NativeEnded => onEnded now (elementNow nowEnded s)
  | NativeError code => onError now (elementNow (nowFailed code) s)
  | NativeTimeUpdate position => elementNow (nowAt position) s
  | BeforeUnload => onBeforeUnload now s
  | VisibilityChange hidden => onVisibilityChange now hidden s
  | ErrorTimeout => hideError s
  | CheckSubmit form => handleStreamCheck form s
  | Settle i r => settle i r s
  end.

Fixpoint run (trace : list (Z * Event)) (s : State) : State :=
  match trace with
  | [] => s
  | (now, e) :: rest => run rest (step now e s)
  end.

End WithBrowser.

(** How a suspended call comes to its end: the request fails, or a
    response arrives and then its body. *)
Inductive Settles (i : nat) : list (Z * Event) -> Prop :=
| SettlesFailed (t1 : Z) :
    Settles i [(t1, Settle i Rejected)]
| SettlesAnswered (t1 t2 : Z) (ok : bool) (r : Settled) :
    Settles i [(t1, Settle i (Fulfilled ok)); (t2, Settle i r)].

(** The same, with at most one native pause event reaching the page
    before the call has come to its end: none, one before the request
    settles, or one between the response and its body. *)
Inductive SettlesWithPause (i : nat) : list (Z * Event) -> Prop :=
| SettlesAlone (tr : list (Z * Event)) :
    Settles i tr -> SettlesWithPause i tr
| SettlesAfterPause (t : Z) (tr : list (Z * Event)) :
    Settles i tr -> SettlesWithPause i ((t, NativePause) :: tr)
| SettlesAroundPause (t1 t t2 : Z) (ok : bool) (r : Settled) :
    SettlesWithPause i
      [(t1, Settle i (Fulfilled ok)); (t, NativePause); (t2, Settle i r)].

(** The events that call [logListeningSession], with the action type and
    the [keepalive] flag they pass. *)
Definition closeAction (e : Event) : option (ActionType * bool) :=
  match e with
  | PauseClick => Some (pause, false)
  | StopClick => Some (stop, false)
  | NativePause => Some (pause, false)
  | NativeEnded => Some (stop, false)
  | NativeError _ => Some (stop, false)
  | BeforeUnload => Some (stop, true)
  | VisibilityChange true => Some (pause, true)
  | _ => None
  end.

(** The events that may end the tracking of a session: the ones above,
    a rejected play promise, and the settling of a request. *)
Definition mayClose (e : Event) : bool :=
  match e with
  | PlayRejected _ | Settle _ _ => true
  | _ => match closeAction e with Some _ => true | None => false end
  end.

(** The user actions that are not playback commands. *)
Definition nonPlayback (e : Event) : bool :=
  match e with
  | CheckSubmit _ | VolumeInput _ | MuteClick | ErrorTimeout => true
  | _ => false
  end.

(** The calls with which the stream check may touch the audio element. *)
Definition restoreCall (c : PrimCall) : bool :=
  match c with
  | CallPlay | CallSetVolume _ | CallSetMuted _ => true
  | _ => false
  end.

(** The record [logListeningSession] builds for a session. *)
Definition sessionRecord (url : string) (start now : Z) (a : ActionType)
    (k : bool) : Delivery :=
  mkDelivery (mkLogData url start now (listeningTimeSeconds start now) a) k.

Definition nativePauses (times : list Z) : list (Z * Event) :=
  map (fun t => (t, NativePause)) times.

(** ** The rest of the script *)

(** *** The API address *)

(** [s.replace(/\/$/, '')]: without the final slash, if there is one. *)
Fixpoint dropFinalSlash (s : string) : string :=
  match s with
  | EmptyString => EmptyString
  | String c r =>
      match r with
      | EmptyString => if Ascii.eqb c "/"%char then EmptyString else s
      | String _ _ => String c (dropFinalSlash r)
      end
  end.

(** [getApiBaseUrl], from the [api] parameter of the page address (absent
    or its value) and the host name of the page. *)
Definition getApiBaseUrl (apiParam : option string) (hostname : string)
    : string :=
  if truthy apiParam then
    match apiParam with
    | Some p => dropFinalSlash p ++ "/api"
    | None => EmptyString
    end
  else if (hostname =? "localhost")%string || (hostname =? "127.0.0.1")%string
  then "http://localhost:5000/api"
  else "http://YOUR-RASPBERRY-PI-IP:5000/api".

Fixpoint dropChars (n : nat) (s : string) : string :=
  match n, s with
  | O, _ => s
  | S _, EmptyString => EmptyString
  | S m, String _ r => dropChars m r
  end.

(** [s.replace(needle, replacement)] for a string needle and a
    replacement without [$]: the first occurrence only. *)
Fixpoint replaceFirst (needle replacement s : string) : string :=
  if prefix needle s then
    replacement ++ dropChars (String.length needle) s
  else
    match s with
    | EmptyString => EmptyString
    | String c r => String c (replaceFirst needle replacement r)
    end.

(** What the "Change" link offers as the [api] parameter, before it is
    percent-encoded: [API_BASE_URL.replace('/api', '')]. *)
Definition changeLinkApi (apiBaseUrl : string) : string :=
  replaceFirst "/api" EmptyString apiBaseUrl.

(** *** The order of the tests in the progress line *)

(** [selectedTests[name]], for the object built from the checked boxes. *)
Definition selected (name : string) (tests : list string) : bool :=
  existsb (String.eqb name) tests.

Definition pushIf (b : bool) (name : string) : list string :=
  if b then [name] else [].

Definition testOrder (tests : list string) : list string :=
  ((if selected "connectivity" tests then
      "connectivity" :: pushIf (selected "stream_info" tests) "stream_info"
        ++ pushIf (selected "metadata" tests) "metadata"
    else [])
   ++ pushIf (selected "player_test" tests) "player_test"
   ++ pushIf (selected "audio_analysis" tests) "audio_analysis"
   ++ pushIf (selected "ad_detection" tests) "ad_detection")%list.

(** The table [testNames]. *)
Definition testNames (test : string) : option string :=
  if (test =? "connectivity")%string then Some "Basic Connectivity"
  else if (test =? "stream_info")%string then Some "Stream Information"
  else if (test =? "metadata")%string then Some "Metadata"
  else if (test =? "player_test")%string then Some "Player Compatibility"
  else if (test =? "audio_analysis")%string then Some "Audio Quality"
  else if (test =? "ad_detection")%string then Some "Ad Detection"
  else None.

(** [updateStatusMessage]: the text for the test at [currentTestIndex]. *)
Definition updateStatusMessage (order : list string) (currentTestIndex : nat)
    : string :=
  match nth_error order currentTestIndex with
  | Some currentTest =>
      let testName := match testNames currentTest with
                      | Some n => if nonEmpty n then n else currentTest
                      | None => currentTest
                      end in
      "Testing " ++ testName ++ "..."
  | None => "Finalizing results..."
  end.

(** *** How results are coloured *)

(** The marks shown beside a result: a check mark, a warning sign, a
    cross. *)
Inductive Icon := IconCheck | IconWarning | IconCross.

(** The three ternaries of the health score block.  The score is a JSON
    number; comparing it with 80 and 60 is exact. *)
Definition healthColor (score : Q) : string :=
  if Qle_bool 80 score then "#28a745"
  else if Qle_bool 60 score then "#ffc107" else "#dc3545".

Definition healthEmoji (score : Q) : Icon :=
  if Qle_bool 80 score then IconCheck
  else if Qle_bool 60 score then IconWarning else IconCross.

Definition healthStatus (score : Q) : string :=
  if Qle_bool 80 score then "Good"
  else if Qle_bool 60 score then "Warning" else "Critical".

(** [httpStatus && (httpStatus >= 400)], for an absent or numeric
    status. *)
Definition isHttpError (httpStatus : option Q) : bool :=
  match httpStatus with
  | Some n => negb (Qeq_bool n 0) && Qle_bool 400 n
  | None => false
  end.

Definition isStatus (word : string) (status : option string) : bool :=
  match status with
  | Some s => (s =? word)%string
  | None => false
  end.

Definition statusColor (status : option string) (httpStatus : option Q)
    : string :=
  if isStatus "success" status && negb (isHttpError httpStatus) then "#28a745"
  else if isStatus "error" status || isHttpError httpStatus then "#dc3545"
  else "#ffc107".

Definition statusIcon (status : option string) (httpStatus : option Q)
    : Icon :=
  if isStatus "success" status && negb (isHttpError httpStatus) then IconCheck
  else if isStatus "error" status || isHttpError httpStatus then IconCross
  else IconWarning.

(** ** Predicates used in the statements *)


(** A submission the stream check sends to the server: a URL that is
    not blank, at least one test, the status elements on the page and,
    when ad detection is selected and its field exists, a duration from
    10 to 300 seconds. *)
Definition validSubmission (form : CheckForm) : Prop :=
  (exists value, urlInput form = Some value /\ blank value = false) /\
  checkedTests form <> [] /\
  statusElements form = true /\
  (In "ad_detection"%string (checkedTests form) ->
   forall d, adDurationInput form = Some d ->
             exists n, d = Some n /\ 10 <= n <= 300).

(** The audio element is playing a source. *)
Definition audible (a : Audio) : Prop :=
  paused a = false /\ ended a = false /\ nonEmpty (src a) = true.

(** ** Scenarios *)

(** An absolute URL in normal form resolves to itself. *)
Definition absolute (url : string) : string := url.

Definition streamA : string := "http://a/stream.mp3".
Definition streamB : string := "http://b/stream.mp3".
Definition streamX : string := "http://x/stream.mp3".

(** White space of more than one byte: U+00A0, U+3000 and U+FEFF; and
    U+200B, the zero-width space, which [trim] keeps. *)
Definition bytes (l : list nat) : string :=
  string_of_list_ascii (map ascii_of_nat l).

Definition noBreakSpace : string := bytes [194; 160]%nat.
Definition ideographicSpace : string := bytes [227; 128; 128]%nat.
Definition byteOrderMark : string := bytes [239; 187; 191]%nat.
Definition zeroWidthSpace : string := bytes [226; 128; 139]%nat.

(** The page after a play click at [t0] whose playing event arrives
    [delay] milliseconds later. *)
Definition listening (url : string) (t0 delay : Z) : State :=
  run absolute
    [(t0, PlayClick url); (t0 + delay, PlayFulfilled);
     (t0 + delay, NativePlaying)]
    initialState.

(** * Properties *)

(** ** Arithmetic of the threshold *)

Lemma Qltb_lt (x y : Q) : Qltb x y = true <-> (x < y)%Q.
Proof.
  unfold Qltb. rewrite negb_true_iff. split.
  - intros H. apply Qnot_le_lt. intros Hle.
    apply Qle_bool_iff in Hle. congruence.
  - intros H. destruct (Qle_bool y x) eqn:E; [|reflexivity].
    apply Qle_bool_iff in E. exfalso. exact (Qlt_not_le _ _ H E).
Qed.

Lemma Qltb_ge (x y : Q) : Qltb x y = false <-> (y <= x)%Q.
Proof.
  unfold Qltb. rewrite negb_false_iff. apply Qle_bool_iff.
Qed.

Lemma short_session_millis (start now : Z) :
  (listeningTimeSeconds start now < minimumSeconds)%Q <-> now - start < 100.
Proof.
  unfold listeningTimeSeconds, minimumSeconds, Qlt, Qdiv, Qmult, Qinv.
  simpl. lia.
Qed.

Lemma long_session_millis (start now : Z) :
  (minimumSeconds <= listeningTimeSeconds start now)%Q <-> 100 <= now - start.
Proof.
  unfold listeningTimeSeconds, minimumSeconds, Qle, Qdiv, Qmult, Qinv.
  simpl. lia.
Qed.

(** The guard of [logListeningSession], in milliseconds. *)
Lemma Qltb_millis (start now : Z) :
  Qltb (listeningTimeSeconds start now) minimumSeconds = (now - start <? 100).
Proof.
  destruct (Z.ltb_spec (now - start) 100) as [H|H].
  - apply Qltb_lt, short_session_millis. exact H.
  - apply Qltb_ge, long_session_millis. exact H.
Qed.

(** ** Strings *)

(** Trimming the front keeps a string blank or not, and leaves nothing
    of a blank one. *)
Lemma trimStart_spec (n : nat) (s : string) :
  (String.length s <= n)%nat ->
  blank (trimStart s) = blank s /\
  (blank s = true -> trimStart s = EmptyString).
Proof.
  revert s. induction n as [|n IH]; intros s Hn.
  - destruct s; [split; reflexivity|simpl in Hn; lia].
  - destruct s as [|c1 r1]; [split; reflexivity|].
    cbn [trimStart blank String.length] in *.
    destruct (isWhiteSpace c1) eqn:E1; [apply IH; lia|].
    destruct r1 as [|c2 r2].
    { cbn [blank]. rewrite E1. split; [reflexivity|discriminate]. }
    cbn [String.length] in Hn.
    destruct (isWhiteSpace2 c1 c2) eqn:E2; [apply IH; lia|].
    destruct r2 as [|c3 r3].
    { cbn [blank]. rewrite E1, E2. split; [reflexivity|discriminate]. }
    cbn [String.length] in Hn.
    destruct (isWhiteSpace3 c1 c2 c3) eqn:E3; [apply IH; lia|].
    cbn [blank]. rewrite E1, E2, E3. split; [reflexivity|discriminate].
Qed.

Lemma trimStart_blank (s : string) : blank s = true -> trimStart s = EmptyString.
Proof. apply (trimStart_spec (String.length s) s). lia. Qed.

Lemma trim_blank (s : string) : blank s = true -> trim s = EmptyString.
Proof.
  intros H. unfold trim. rewrite (trimStart_blank s H). reflexivity.
Qed.

(** ** Lists of suspended tasks *)

Lemma nth_error_last {A} (l : list A) (x : A) :
  nth_error (l ++ [x]) (List.length l) = Some x.
Proof. induction l as [|y l IH]; simpl; [reflexivity|exact IH]. Qed.

Lemma nth_error_end {A} (l : list A) : nth_error l (List.length l) = None.
Proof. induction l as [|y l IH]; simpl; [reflexivity|exact IH]. Qed.

Lemma removeAt_last {A} (l : list A) (x : A) :
  removeAt (List.length l) (l ++ [x]) = l.
Proof. induction l as [|y l IH]; simpl; [reflexivity|now rewrite IH]. Qed.

Lemma replaceAt_last {A} (l : list A) (x y : A) :
  replaceAt (List.length l) y (l ++ [x]) = (l ++ [y])%list.
Proof. induction l as [|z l IH]; simpl; [reflexivity|now rewrite IH]. Qed.

Local Open Scope list_scope.

(** ** logListeningSession *)

(** With a session tracked, the call posts one record when the session
    lasted at least the minimum, and otherwise drops the session. *)
Lemma logListeningSession_active
    (now : Z) (a : ActionType) (sync : bool) (c : Caller) (s : State)
    (t : Z) (u : string) :
  listeningStartTime s = Some t ->
  currentStreamUrl s = Some u ->
  nonEmpty u = true ->
  logListeningSession now a sync c s =
    if Qltb (listeningTimeSeconds t now) minimumSeconds then
      (set_listeningStartTime None s, Returned)
    else if sync then
      (set_listeningStartTime None
         (set_sent (sent s ++ [sessionRecord u t now a true]) s), Returned)
    else
      (set_pending (pending s ++ [LogTask c AwaitFetch])
         (set_sent (sent s ++ [sessionRecord u t now a false]) s), Suspended).
Proof.
  intros Ht Hu Hne. unfold logListeningSession.
  rewrite Ht, Hu, Hne. reflexivity.
Qed.

(** Without a start time the call does nothing at all. *)
Lemma logListeningSession_idle
    (now : Z) (a : ActionType) (sync : bool) (c : Caller) (s : State) :
  listeningStartTime s = None ->
  logListeningSession now a sync c s = (s, Returned).
Proof.
  intros Ht. unfold logListeningSession. rewrite Ht. reflexivity.
Qed.

(** The call never posts more than one record, and what it posts is
    appended to what was sent before. *)
Lemma logListeningSession_sent
    (now : Z) (a : ActionType) (sync : bool) (c : Caller) (s : State) :
  exists l, sent (fst (logListeningSession now a sync c s)) = sent s ++ l /\
            (List.length l <= 1)%nat.
Proof.
  assert (Hnil : forall s' : State, sent s' = sent s ->
            exists l, sent s' = sent s ++ l /\ (List.length l <= 1)%nat).
  { intros s' H. exists []. rewrite app_nil_r. split; [exact H|simpl; lia]. }
  destruct (listeningStartTime s) as [t|] eqn:Ht;
    [|rewrite logListeningSession_idle by exact Ht; apply Hnil; reflexivity].
  unfold logListeningSession. rewrite Ht.
  destruct (currentStreamUrl s) as [u|]; [|apply Hnil; reflexivity].
  destruct (nonEmpty u); [|apply Hnil; reflexivity].
  destruct (Qltb _ _); [apply Hnil; destruct s; reflexivity|].
  destruct sync; eexists; (split; [destruct s; reflexivity|simpl; lia]).
Qed.

Arguments nonEmpty : simpl never.
Arguments trim : simpl never.
Arguments srcMatches : simpl never.
Arguments listeningTimeSeconds : simpl never.
Arguments minimumSeconds : simpl never.
Arguments Qltb : simpl never.
Arguments sessionRecord : simpl never.

(** Name the fields of a state and compute with them. *)
Ltac open_state s :=
  destruct s as [ip cpu ipi lst csu ilp flag sp st pe sd al pc sn pd];
  simpl in *; subst.

(** Replace a call of [logListeningSession] by what it returns, for a
    session started at [t] on [u]. *)
Ltac run_log t u Hne :=
  repeat first
    [ rewrite (logListeningSession_active _ _ _ _ _ t u)
        by first [reflexivity | exact Hne]
    | rewrite logListeningSession_idle by reflexivity ].

(** Decide whether the play button has to assign a new source. *)
Ltac split_source cpu value :=
  destruct cpu as [?c|]; simpl;
  [ destruct (nonEmpty c); simpl;
    [ destruct (String.eqb c (trim value)); simpl | ] | ].

Ltac unfold_handlers :=
  unfold step, playBtnClick, playFulfilled, playRejected, pauseBtnClick,
    stopBtnClick, onPlaying, onPause, onEnded, onError, onBeforeUnload,
    onVisibilityChange, onVolumeInput, muteBtnClick, awaitLog, elementNow.

Section Properties.

Variable resolveUrl : string -> string.

(** ** Runs *)

Lemma run_app (tr1 tr2 : list (Z * Event)) (s : State) :
  run resolveUrl (tr1 ++ tr2) s = run resolveUrl tr2 (run resolveUrl tr1 s).
Proof.
  revert s. induction tr1 as [|[now e] tr1 IH]; intros s; simpl;
    [reflexivity|apply IH].
Qed.

(** A delivery that is the last suspended task runs the rest of
    [logListeningSession], and then of its caller, once it has settled,
    whichever way it settles. *)
Lemma settles_delivery
    (c : Caller) (s : State) (before : list Task) (tr : list (Z * Event)) :
  pending s = before ++ [LogTask c AwaitFetch] ->
  Settles (List.length before) tr ->
  run resolveUrl tr s =
    resume c (logListeningSessionEnd (set_pending before s)).
Proof.
  intros Hp Hs. destruct Hs as [t1|t1 t2 ok r]; simpl; unfold settle.
  - rewrite Hp, nth_error_last, removeAt_last. reflexivity.
  - rewrite Hp, nth_error_last, replaceAt_last.
    assert (Hq : pending (set_pending (before ++ [LogTask c AwaitBody]) s)
                 = before ++ [LogTask c AwaitBody])
      by (destruct s; reflexivity).
    rewrite Hq, nth_error_last, removeAt_last.
    destruct s; reflexivity.
Qed.

(** Settling a task that does not exist changes nothing. *)
Lemma settles_nothing (s : State) (tr : list (Z * Event)) :
  Settles (List.length (pending s)) tr -> run resolveUrl tr s = s.
Proof.
  intros Hs. destruct Hs as [t1|t1 t2 ok r]; simpl; unfold settle;
    rewrite !nth_error_end; reflexivity.
Qed.

(** ** The native pause handler *)

(** The handler posts nothing when the button announced the pause or
    when no session is tracked. *)
Lemma native_pause_silent (now : Z) (s : State) :
  pauseTriggeredByButton s = true \/ listeningStartTime s = None ->
  sent (step resolveUrl now NativePause s) = sent s /\
  pending (step resolveUrl now NativePause s) = pending s /\
  listeningStartTime (step resolveUrl now NativePause s) = listeningStartTime s.
Proof.
  intros H. open_state s. unfold_handlers.
  destruct H as [-> | ->]; [|destruct flag]; simpl;
    destruct (currentTime sp =? 0); simpl; auto.
Qed.

(** With no session tracked, no run of native pauses posts anything. *)
Lemma native_pauses_untracked (times : list Z) (s : State) :
  listeningStartTime s = None ->
  sent (run resolveUrl (nativePauses times) s) = sent s /\
  listeningStartTime (run resolveUrl (nativePauses times) s) = None.
Proof.
  revert s. induction times as [|now times IH]; intros s Hs;
    [simpl; auto|].
  change (run resolveUrl (nativePauses (now :: times)) s)
    with (run resolveUrl (nativePauses times)
            (step resolveUrl now NativePause s)).
  destruct (native_pause_silent now s (or_intror Hs)) as (Hsent & _ & Hlst).
  rewrite Hs in Hlst. destruct (IH _ Hlst) as [IH1 IH2].
  rewrite IH1, Hsent, IH2. auto.
Qed.

(** ** Closing a session *)

(** What a closing event adds to the requests sent. *)
Lemma close_sent
    (now : Z) (e : Event) (s : State) (t : Z) (u : string)
    (a : ActionType) (k : bool) :
  listeningStartTime s = Some t ->
  currentStreamUrl s = Some u ->
  nonEmpty u = true ->
  closeAction e = Some (a, k) ->
  (e = NativePause -> pauseTriggeredByButton s = false) ->
  sent (step resolveUrl now e s) =
    sent s ++ (if Qltb (listeningTimeSeconds t now) minimumSeconds
               then [] else [sessionRecord u t now a k]).
Proof.
  intros Ht Hu Hne Ha Hflag. open_state s.
  destruct e; try discriminate Ha;
    try (destruct hidden; [|discriminate Ha]);
    injection Ha as <- <-;
    unfold_handlers;
    simpl; try rewrite (Hflag eq_refl); try rewrite Hne; run_log t u Hne;
    destruct (Qltb _ _); simpl; rewrite ?app_nil_r; try reflexivity;
    destruct (currentTime sp =? 0); reflexivity.
Qed.

(** ** Awaited deliveries *)

Lemma awaitLog_short
    (now : Z) (a : ActionType) (c : Caller) (s : State) (t : Z) (u : string) :
  listeningStartTime s = Some t ->
  currentStreamUrl s = Some u ->
  nonEmpty u = true ->
  Qltb (listeningTimeSeconds t now) minimumSeconds = true ->
  awaitLog now a c s = resume c (set_listeningStartTime None s).
Proof.
  intros Ht Hu Hne Hd. unfold awaitLog.
  rewrite (logListeningSession_active _ _ _ _ _ t u Ht Hu Hne), Hd.
  reflexivity.
Qed.

Lemma awaitLog_long
    (now : Z) (a : ActionType) (c : Caller) (s : State) (t : Z) (u : string) :
  listeningStartTime s = Some t ->
  currentStreamUrl s = Some u ->
  nonEmpty u = true ->
  Qltb (listeningTimeSeconds t now) minimumSeconds = false ->
  awaitLog now a c s =
    set_pending (pending s ++ [LogTask c AwaitFetch])
      (set_sent (sent s ++ [sessionRecord u t now a false]) s).
Proof.
  intros Ht Hu Hne Hd. unfold awaitLog.
  rewrite (logListeningSession_active _ _ _ _ _ t u Ht Hu Hne), Hd.
  reflexivity.
Qed.

Lemma awaitLog_idle (now : Z) (a : ActionType) (c : Caller) (s : State) :
  listeningStartTime s = None -> awaitLog now a c s = resume c s.
Proof.
  intros Ht. unfold awaitLog.
  rewrite (logListeningSession_idle _ _ _ _ _ Ht). reflexivity.
Qed.

(** The pause button, its delivery settled, leaves no session tracked
    and has posted the session's record once if it was long enough. *)
Lemma pause_click_settled
    (now : Z) (s : State) (t : Z) (u : string) (settled : list (Z * Event)) :
  listeningStartTime s = Some t ->
  currentStreamUrl s = Some u ->
  nonEmpty u = true ->
  Settles (List.length (pending s)) settled ->
  let done := run resolveUrl settled (step resolveUrl now PauseClick s) in
  sent done =
    sent s ++ (if Qltb (listeningTimeSeconds t now) minimumSeconds
               then [] else [sessionRecord u t now pause false]) /\
  listeningStartTime done = None /\
  pending done = pending s /\
  primCalls done = primCalls s ++ [CallPause].
Proof.
  intros Ht Hu Hne Hs done. subst done.
  unfold step, pauseBtnClick.
  destruct (Qltb (listeningTimeSeconds t now) minimumSeconds) eqn:Hd.
  - rewrite (awaitLog_short _ _ _ _ t u) by (destruct s; assumption).
    rewrite settles_nothing by (destruct s; exact Hs).
    open_state s. rewrite app_nil_r. auto.
  - rewrite (awaitLog_long _ _ _ _ t u) by (destruct s; assumption).
    rewrite (settles_delivery ByPauseBtn _ (pending s))
      by (destruct s; first [reflexivity | exact Hs]).
    open_state s. auto.
Qed.

(** What the click on the pause button leaves: the flag set, and either
    no session and nothing suspended, or the handler suspended on its
    delivery. *)
Lemma pause_click_state (now : Z) (s : State) (t : Z) (u : string) :
  listeningStartTime s = Some t ->
  currentStreamUrl s = Some u ->
  nonEmpty u = true ->
  let clicked := step resolveUrl now PauseClick s in
  pauseTriggeredByButton clicked = true /\
  ((listeningStartTime clicked = None /\ pending clicked = pending s) \/
   pending clicked = pending s ++ [LogTask ByPauseBtn AwaitFetch]).
Proof.
  intros Ht Hu Hne clicked. subst clicked. unfold step, pauseBtnClick.
  destruct (Qltb (listeningTimeSeconds t now) minimumSeconds) eqn:Hd.
  - rewrite (awaitLog_short _ _ _ _ t u) by (destruct s; assumption).
    destruct s; simpl; auto.
  - rewrite (awaitLog_long _ _ _ _ t u) by (destruct s; assumption).
    destruct s; simpl; auto.
Qed.

(** The rest of the pause button's handler posts nothing and leaves no
    session. *)
Lemma pause_resume_closed (before : list Task) (s : State) :
  let done :=
    resume ByPauseBtn (logListeningSessionEnd (set_pending before s)) in
  sent done = sent s /\ listeningStartTime done = None.
Proof. destruct s; simpl; auto. Qed.

(** The records posted are the same, and no session is tracked, once
    the button's delivery has settled with at most one native pause
    event on the way. *)
Lemma pause_click_closing
    (now : Z) (s : State) (t : Z) (u : string) (closing : list (Z * Event)) :
  listeningStartTime s = Some t ->
  currentStreamUrl s = Some u ->
  nonEmpty u = true ->
  SettlesWithPause (List.length (pending s)) closing ->
  let clicked := step resolveUrl now PauseClick s in
  let done := run resolveUrl closing clicked in
  sent done = sent clicked /\ listeningStartTime done = None.
Proof.
  intros Ht Hu Hne Hc clicked done. subst done.
  destruct (pause_click_state now s t u Ht Hu Hne) as (Hflag & Hp).
  fold clicked in Hflag, Hp.
  destruct Hc as [tr Hs|t' tr Hs|t1 t' t2 ok r].
  - destruct (pause_click_settled now s t u tr Ht Hu Hne Hs) as (H1 & H2 & _).
    fold clicked in H1, H2. rewrite H1. split; [|exact H2].
    symmetry. apply (close_sent now PauseClick s t u pause false);
      first [assumption | reflexivity | discriminate].
  - change (run resolveUrl ((t', NativePause) :: tr) clicked)
      with (run resolveUrl tr (step resolveUrl t' NativePause clicked)).
    destruct (native_pause_silent t' clicked (or_introl Hflag))
      as (Hsent & Hpend & Hlst).
    destruct Hp as [(Hnone & Hp)|Hp].
    + rewrite settles_nothing by (rewrite Hpend, Hp; exact Hs).
      split; congruence.
    + rewrite (settles_delivery ByPauseBtn _ (pending s))
        by first [congruence | exact Hs].
      destruct (pause_resume_closed (pending s)
                  (step resolveUrl t' NativePause clicked)) as (H1 & H2).
      split; congruence.
  - change (run resolveUrl
              [(t1, Settle (List.length (pending s)) (Fulfilled ok));
               (t', NativePause);
               (t2, Settle (List.length (pending s)) r)] clicked)
      with (settle (List.length (pending s)) r
              (step resolveUrl t' NativePause
                 (settle (List.length (pending s)) (Fulfilled ok) clicked))).
    destruct Hp as [(Hnone & Hp)|Hp].
    + assert (H1 : settle (List.length (pending s)) (Fulfilled ok) clicked
                   = clicked)
        by (unfold settle; rewrite Hp, nth_error_end; reflexivity).
      rewrite H1.
      destruct (native_pause_silent t' clicked (or_introl Hflag))
        as (Hsent & Hpend & Hlst).
      unfold settle. rewrite Hpend, Hp, nth_error_end.
      split; congruence.
    + assert (H1 : settle (List.length (pending s)) (Fulfilled ok) clicked
                   = set_pending (pending s ++ [LogTask ByPauseBtn AwaitBody])
                       clicked)
        by (unfold settle; rewrite Hp, nth_error_last, replaceAt_last;
            reflexivity).
      rewrite H1.
      set (waiting := set_pending _ clicked).
      assert (Hw : pauseTriggeredByButton waiting = true /\
                   sent waiting = sent clicked /\
                   pending waiting =
                     pending s ++ [LogTask ByPauseBtn AwaitBody])
        by (subst waiting; destruct clicked; simpl in *; auto).
      destruct Hw as (Hf & Hws & Hwp).
      destruct (native_pause_silent t' waiting (or_introl Hf))
        as (Hsent & Hpend & Hlst).
      unfold settle. rewrite Hpend, Hwp, nth_error_last, removeAt_last.
      destruct (pause_resume_closed (pending s)
                  (step resolveUrl t' NativePause waiting)) as (H2 & H3).
      split; congruence.
Qed.

(** C1 (amended).  A tracked session closed by the pause button: the
    click sets the button flag and posts the session's record when the
    session lasted at least 100 ms, and nothing when it was shorter.
    Nothing more is posted, and no session is left, when the button's
    delivery has settled with at most one native pause event on the way,
    however many native pause events follow; and the native pause
    handler posts nothing when the flag is set or when no session is
    tracked. *)
Theorem button_pause_counts_once
    (now : Z) (s : State) (t : Z) (u : string)
    (closing : list (Z * Event)) (times : list Z) :
  listeningStartTime s = Some t ->
  currentStreamUrl s = Some u ->
  nonEmpty u = true ->
  SettlesWithPause (List.length (pending s)) closing ->
  let clicked := step resolveUrl now PauseClick s in
  let closed := run resolveUrl (closing ++ nativePauses times) clicked in
  pauseTriggeredByButton clicked = true /\
  sent clicked =
    sent s ++
      (if now - t <? 100 then []
       else [mkDelivery
               (mkLogData u t now (inject_Z (now - t) / inject_Z 1000)%Q pause)
               false]) /\
  sent closed = sent clicked /\
  listeningStartTime closed = None /\
  (forall (now' : Z) (s' : State),
     pauseTriggeredByButton s' = true \/ listeningStartTime s' = None ->
     sent (step resolveUrl now' NativePause s') = sent s').
Proof.
  intros Ht Hu Hne Hc clicked closed. subst closed.
  rewrite run_app.
  destruct (pause_click_closing now s t u closing Ht Hu Hne Hc)
    as (Hsent & Hlst).
  fold clicked in Hsent, Hlst.
  destruct (native_pauses_untracked times _ Hlst) as [H1 H2].
  rewrite H1, H2.
  split.
  { subst clicked. unfold step, pauseBtnClick, awaitLog.
    rewrite (logListeningSession_active _ _ _ _ _ t u)
      by (destruct s; assumption).
    destruct (Qltb _ _); destruct s; reflexivity. }
  split.
  { subst clicked.
    rewrite (close_sent now PauseClick s t u pause false Ht Hu Hne eq_refl)
      by discriminate.
    rewrite Qltb_millis. reflexivity. }
  repeat split; try assumption.
  intros now' s' H. apply native_pause_silent. exact H.
Qed.



(** ** The stream check *)

(** Up to its request, the stream check reads the audio element and
    writes only the form. *)
Lemma handleStreamCheck_frame (form : CheckForm) (s : State) :
  closureVars (handleStreamCheck form s) = closureVars s /\
  sent (handleStreamCheck form s) = sent s /\
  primCalls (handleStreamCheck form s) = primCalls s /\
  streamPlayer (handleStreamCheck form s) = streamPlayer s.
Proof.
  unfold handleStreamCheck.
  destruct (urlInput form) as [value|]; [|auto].
  destruct (negb (nonEmpty (trim value))); [destruct s; auto|].
  match goal with |- context [if ?b then _ else _] => destruct b end;
    [destruct s; auto|].
  destruct (checkedTests form); [destruct s; auto|].
  destruct (statusElements form); destruct s; auto.
Qed.

(** The [finally] block restores the volume and the mute setting and may
    ask the element to play; it does nothing else. *)
Lemma handleStreamCheckFinally_frame (snap : Snapshot) (s : State) :
  closureVars (handleStreamCheckFinally snap s) = closureVars s /\
  sent (handleStreamCheckFinally snap s) = sent s /\
  exists calls,
    primCalls (handleStreamCheckFinally snap s) = primCalls s ++ calls /\
    forallb restoreCall calls = true.
Proof.
  unfold handleStreamCheckFinally.
  assert (Hnil : forall s' : State,
            primCalls s' = primCalls s ->
            exists calls, primCalls s' = primCalls s ++ calls /\
                          forallb restoreCall calls = true).
  { intros s' H. exists []. rewrite app_nil_r. auto. }
  destruct (wasPlaying snap && nonEmpty (currentSrc snap));
    [|destruct s; repeat split; apply Hnil; reflexivity].
  destruct (srcMatches _ _);
    [|destruct s; repeat split; apply Hnil; reflexivity].
  match goal with |- context [if ?b then _ else _] => destruct b end.
  - destruct s; repeat split.
    exists [CallSetVolume (currentVolume snap); CallSetMuted (wasMuted snap);
            CallPlay].
    simpl. rewrite <- !app_assoc. auto.
  - destruct s; repeat split.
    exists [CallSetVolume (currentVolume snap); CallSetMuted (wasMuted snap)].
    simpl. rewrite <- !app_assoc. auto.
Qed.

(** ** The play button *)

(** With a session tracked, a play click leaves the tracker and the
    requests alone, whatever the URL in the field. *)
Lemma play_click_tracking (now : Z) (value : string) (s : State) (t : Z) :
  listeningStartTime s = Some t ->
  let s' := step resolveUrl now (PlayClick value) s in
  listeningStartTime s' = Some t /\
  currentStreamUrl s' = currentStreamUrl s /\
  pauseTriggeredByButton s' = pauseTriggeredByButton s /\
  sent s' = sent s /\
  pending s' = pending s.
Proof.
  intros Ht s'. subst s'. open_state s. unfold_handlers. simpl.
  destruct (nonEmpty (trim value)); simpl; [|auto].
  split_source cpu value; auto.
Qed.

(** With nothing tracked, a play click starts a session at its own
    time; no play click posts or suspends anything. *)
Lemma play_click_starts (now : Z) (value : string) (s : State) :
  listeningStartTime s = None ->
  nonEmpty (trim value) = true ->
  let s' := step resolveUrl now (PlayClick value) s in
  listeningStartTime s' = Some now /\
  currentStreamUrl s' = Some (trim value).
Proof.
  intros Ht Hv s'. subst s'. open_state s. unfold_handlers. simpl.
  rewrite Hv. simpl. split_source cpu value; auto.
Qed.

Lemma play_click_frame (now : Z) (value : string) (s : State) :
  sent (step resolveUrl now (PlayClick value) s) = sent s /\
  pending (step resolveUrl now (PlayClick value) s) = pending s.
Proof.
  open_state s. unfold_handlers. simpl.
  destruct (nonEmpty (trim value)); simpl; [|auto].
  split_source cpu value; destruct lst; auto.
Qed.


(** The playing event keeps a tracked start time and names the session
    after the element's source. *)
Lemma playing_tracking (now : Z) (s : State) (t : Z) :
  listeningStartTime s = Some t ->
  let s' := step resolveUrl now NativePlaying s in
  listeningStartTime s' = Some t /\
  sent s' = sent s /\
  pending s' = pending s /\
  src (streamPlayer s') = src (streamPlayer s) /\
  (nonEmpty (src (streamPlayer s)) = true ->
     currentStreamUrl s' = Some (src (streamPlayer s))) /\
  (nonEmpty (src (streamPlayer s)) = false ->
     currentStreamUrl s' = currentStreamUrl s).
Proof.
  intros Ht s'. subst s'. open_state s. unfold_handlers. simpl.
  destruct sp as [sr p en ct v m er]. simpl.
  destruct (nonEmpty sr); simpl; repeat split; auto; discriminate.
Qed.


(** C4 (amended).  With nothing tracked, the play click itself starts the
    session, at the time of the click; the playing event that follows
    does not move the start, so the pause button reports the time since
    the click.  A playing event starts a session, at its own time, only
    when none is tracked. *)
Theorem tracking_starts_at_play_click
    (now now2 now3 : Z) (value : string) (s : State) :
  listeningStartTime s = None ->
  nonEmpty (trim value) = true ->
  let s1 := step resolveUrl now (PlayClick value) s in
  let s2 := step resolveUrl now2 NativePlaying s1 in
  listeningStartTime s1 = Some now /\
  currentStreamUrl s1 = Some (trim value) /\
  listeningStartTime s2 = Some now /\
  (exists u, currentStreamUrl s2 = Some u /\ nonEmpty u = true /\
     sent (step resolveUrl now3 PauseClick s2) =
       sent s ++ (if Qltb (listeningTimeSeconds now now3) minimumSeconds
                  then [] else [sessionRecord u now now3 pause false])) /\
  (forall (now0 : Z) (s0 : State),
     listeningStartTime s0 = None ->
     nonEmpty (src (streamPlayer s0)) = true ->
     listeningStartTime (step resolveUrl now0 NativePlaying s0) = Some now0).
Proof.
  intros Ht Hv s1 s2.
  destruct (play_click_starts now value s Ht Hv) as (H1 & H2).
  destruct (play_click_frame now value s) as (H3 & _).
  fold s1 in H1, H2, H3.
  destruct (playing_tracking now2 s1 now H1) as (H4 & H5 & _ & _ & H6 & H7).
  fold s2 in H4, H5, H6, H7.
  split; [exact H1|]. split; [exact H2|]. split; [exact H4|]. split.
  - destruct (nonEmpty (src (streamPlayer s1))) eqn:Hsrc.
    + exists (src (streamPlayer s1)). split; [auto|]. split; [exact Hsrc|].
      rewrite (close_sent now3 PauseClick s2 now (src (streamPlayer s1))
                 pause false H4 (H6 eq_refl) Hsrc eq_refl) by discriminate.
      rewrite H5, H3. reflexivity.
    + exists (trim value). rewrite (H7 eq_refl). split; [exact H2|].
      split; [exact Hv|].
      rewrite (close_sent now3 PauseClick s2 now (trim value) pause false
                 H4) by first [discriminate | reflexivity | assumption
                              | rewrite (H7 eq_refl); exact H2].
      rewrite H5, H3. reflexivity.
  - intros now0 s0 H0 Hs0. open_state s0. unfold_handlers. simpl.
    destruct sp as [sr p en ct v m er]. simpl in *. rewrite Hs0. simpl.
    rewrite Hs0. reflexivity.
Qed.

(** C7.  A play click for the source that is already loaded, while a
    session is tracked, changes none of the player's variables, posts
    nothing and only asks the element to play; and no event other than a
    close (pause or stop, a native pause, the end of the stream, an
    error or a rejected play, the page being hidden or unloaded, the
    settling of a request) moves the start of a tracked session or posts
    a record. *)
Theorem same_source_play_is_noop
    (now : Z) (value : string) (s : State) (t : Z) :
  listeningStartTime s = Some t ->
  nonEmpty (trim value) = true ->
  currentPlayingUrl s = Some (trim value) ->
  let s' := step resolveUrl now (PlayClick value) s in
  closureVars s' = closureVars s /\
  sent s' = sent s /\
  pending s' = pending s /\
  primCalls s' = primCalls s ++ [CallPlay] /\
  src (streamPlayer s') = src (streamPlayer s) /\
  (forall (now0 : Z) (e : Event) (s0 : State) (t0 : Z),
     listeningStartTime s0 = Some t0 ->
     mayClose e = false ->
     listeningStartTime (step resolveUrl now0 e s0) = Some t0 /\
     sent (step resolveUrl now0 e s0) = sent s0).
Proof.
  intros Ht Hv Hc s'. subst s'. repeat split.
  1-5: open_state s; unfold_handlers; simpl; rewrite Hv; simpl;
       rewrite ?Hv; simpl; rewrite String.eqb_refl; reflexivity.
  - destruct e; try discriminate H0.
    + apply (play_click_tracking now0 value0 s0 t0 H).
    + open_state s0. reflexivity.
    + open_state s0. reflexivity.
    + open_state s0. reflexivity.
    + open_state s0. reflexivity.
    + open_state s0. reflexivity.
    + apply (playing_tracking now0 s0 t0 H).
    + open_state s0. reflexivity.
    + destruct hidden; [discriminate H0|]. open_state s0. reflexivity.
    + open_state s0. reflexivity.
    + destruct (handleStreamCheck_frame form s0) as (Hv0 & _).
      unfold closureVars in Hv0. simpl. congruence.
  - destruct e; try discriminate H0.
    + apply (play_click_frame now0 value0 s0).
    + open_state s0. reflexivity.
    + open_state s0. reflexivity.
    + open_state s0. reflexivity.
    + open_state s0. reflexivity.
    + open_state s0. reflexivity.
    + apply (playing_tracking now0 s0 t0 H).
    + open_state s0. reflexivity.
    + destruct hidden; [discriminate H0|]. open_state s0. reflexivity.
    + open_state s0. reflexivity.
    + apply (handleStreamCheck_frame form s0).
Qed.

(** C8.  A play click with an empty or blank URL field shows the error
    and returns: no call on the audio element, no change to the player's
    variables, nothing posted and nothing suspended. *)
Theorem blank_source_fails_fast (now : Z) (value : string) (s : State) :
  blank value = true ->
  let s' := step resolveUrl now (PlayClick value) s in
  playerError s' = Some "Please enter a stream URL first"%string /\
  playerStatus s' = Error /\
  primCalls s' = primCalls s /\
  streamPlayer s' = streamPlayer s /\
  closureVars s' = closureVars s /\
  sent s' = sent s /\
  pending s' = pending s.
Proof.
  intros Hb s'. subst s'. unfold step, playBtnClick.
  rewrite (trim_blank value Hb).
  change (nonEmpty EmptyString) with false.
  open_state s. repeat split.
Qed.

(** C9.  An action that is not a playback command (submitting a stream
    check, the volume slider, the mute button) and the settling of a
    stream check change none of the player's variables and post no
    record; what they call on the audio element is at most [play], the
    volume and the mute setting, never a pause, a reload or a seek. *)
Theorem unrelated_actions_leave_tracker
    (now : Z) (e : Event) (s : State) :
  (nonPlayback e = true \/
   exists i r snap p,
     e = Settle i r /\ nth_error (pending s) i = Some (CheckTask snap p)) ->
  let s' := step resolveUrl now e s in
  closureVars s' = closureVars s /\
  listeningStartTime s' = listeningStartTime s /\
  currentStreamUrl s' = currentStreamUrl s /\
  sent s' = sent s /\
  exists calls, primCalls s' = primCalls s ++ calls /\
                forallb restoreCall calls = true.
Proof.
  intros H s'. subst s'.
  assert (Hgoal : closureVars (step resolveUrl now e s) = closureVars s /\
                  sent (step resolveUrl now e s) = sent s /\
                  exists calls,
                    primCalls (step resolveUrl now e s) = primCalls s ++ calls /\
                    forallb restoreCall calls = true).
  { destruct H as [H | (i & r & snap & p & -> & Hi)].
    - destruct e; try discriminate H.
      + open_state s. repeat split. eexists. split; reflexivity.
      + open_state s. repeat split. eexists. split; reflexivity.
      + open_state s. repeat split. exists []. rewrite app_nil_r. auto.
      + destruct (handleStreamCheck_frame form s) as (H1 & H2 & H3 & _).
        repeat split; auto. exists []. rewrite app_nil_r. auto.
    - simpl. unfold settle. rewrite Hi.
      destruct p; [destruct r|].
      + destruct (handleStreamCheckFinally_frame snap
                    (set_pending (removeAt i (pending s)) s))
          as (H1 & H2 & calls & H3 & H4).
        rewrite H1, H2, H3. open_state s. repeat split.
        exists calls. auto.
      + open_state s. repeat split. exists []. rewrite app_nil_r. auto.
      + destruct (handleStreamCheckFinally_frame snap
                    (set_pending (removeAt i (pending s)) s))
          as (H1 & H2 & calls & H3 & H4).
        rewrite H1, H2, H3. open_state s. repeat split.
        exists calls. auto. }
  destruct Hgoal as (H1 & H2 & H3).
  split; [exact H1|]. unfold closureVars in H1.
  split; [congruence|]. split; [congruence|]. split; assumption.
Qed.


(** ** One record at most *)

Lemma awaitLog_sent (now : Z) (a : ActionType) (c : Caller) (s : State) :
  sent (awaitLog now a c s) = sent (fst (logListeningSession now a false c s)).
Proof.
  unfold awaitLog.
  destruct (logListeningSession now a false c s) as [s' [|]]; simpl;
    [destruct c; destruct s'; reflexivity|reflexivity].
Qed.

Lemma resume_sent (c : Caller) (s : State) : sent (resume c s) = sent s.
Proof. destruct c; destruct s; reflexivity. Qed.

(** No event posts more than one record, and none is ever withdrawn. *)
Lemma step_sends_at_most_one (now : Z) (e : Event) (s : State) :
  exists l, sent (step resolveUrl now e s) = sent s ++ l /\
            (List.length l <= 1)%nat.
Proof.
  assert (Hnil : forall s' : State, sent s' = sent s ->
            exists l, sent s' = sent s ++ l /\ (List.length l <= 1)%nat).
  { intros s' H. exists []. rewrite app_nil_r. split; [exact H|simpl; lia]. }
  assert (Hlog : forall a sync c (s0 : State), sent s0 = sent s ->
            exists l, sent (fst (logListeningSession now a sync c s0))
                      = sent s ++ l /\ (List.length l <= 1)%nat).
  { intros a sync c s0 H. rewrite <- H. apply logListeningSession_sent. }
  destruct e.
  - apply Hnil. apply play_click_frame.
  - apply Hnil. destruct s; reflexivity.
  - apply Hnil. destruct s; reflexivity.
  - unfold step, pauseBtnClick. rewrite awaitLog_sent. apply Hlog.
    destruct s; reflexivity.
  - unfold step, stopBtnClick. rewrite awaitLog_sent. apply Hlog. reflexivity.
  - apply Hnil. destruct s; reflexivity.
  - apply Hnil. destruct s; reflexivity.
  - apply Hnil. destruct s; reflexivity.
  - apply Hnil. destruct s; reflexivity.
  - apply Hnil. open_state s. unfold_handlers. simpl.
    destruct sp as [sr p en ct v m er]. simpl.
    destruct (nonEmpty sr) eqn:E; simpl; rewrite ?E; destruct lst; simpl;
      rewrite ?E; try destruct (truthy csu); reflexivity.
  - unfold step, onPause.
    destruct (pauseTriggeredByButton (elementNow (nowPaused true) s)) eqn:Hf;
      [|destruct (listeningStartTime (elementNow (nowPaused true) s)) eqn:Hl].
    + apply Hnil. destruct s. simpl.
      destruct (currentTime _ =? 0); reflexivity.
    + destruct (Hlog pause false Unawaited (elementNow (nowPaused true) s))
        as (l & Hl1 & Hl2); [destruct s; reflexivity|].
      exists l. split; [|exact Hl2]. rewrite <- Hl1.
      destruct (fst (logListeningSession _ _ _ _ _)). simpl.
      destruct (currentTime _ =? 0); reflexivity.
    + apply Hnil. destruct s. simpl.
      destruct (currentTime _ =? 0); reflexivity.
  - unfold step, onEnded. rewrite awaitLog_sent. apply Hlog.
    destruct s; reflexivity.
  - unfold step, onError.
    destruct (listeningStartTime (elementNow (nowFailed code) s)).
    + rewrite awaitLog_sent. apply Hlog. destruct s; reflexivity.
    + apply Hnil. destruct s; reflexivity.
  - apply Hnil. destruct s; reflexivity.
  - unfold step, onBeforeUnload. destruct (listeningStartTime s);
      [destruct (truthy (currentStreamUrl s))|];
      [apply Hlog; reflexivity|apply Hnil; reflexivity..].
  - unfold step, onVisibilityChange. destruct hidden;
      [destruct (listeningStartTime s);
       [destruct (truthy (currentStreamUrl s))|]|];
      [apply Hlog; reflexivity|apply Hnil; reflexivity..].
  - apply Hnil. destruct s; reflexivity.
  - apply Hnil. apply handleStreamCheck_frame.
  - apply Hnil. unfold step, settle.
    destruct (nth_error (pending s) i) as [[c [|]|snap [|]]|];
      try destruct r;
      rewrite ?resume_sent;
      try (destruct (handleStreamCheckFinally_frame snap
                       (set_pending (removeAt i (pending s)) s))
             as (_ & -> & _));
      destruct s; reflexivity.
Qed.

(** ** The threshold *)

(** C5 (amended).  Every call of [logListeningSession] on a tracked
    session (the pause and stop buttons, a native pause that the button
    did not announce, the end of the stream, a playback error, the page
    being hidden or unloaded) posts the session's record exactly when
    the end is 100 ms or more after the start, and posts nothing when it
    is less.  The two other events that end the tracking post nothing,
    however long the session was: a rejected play promise, which drops
    the session, and the settling of a request. *)
Theorem threshold_filter
    (now : Z) (e : Event) (s : State) (t : Z) (u : string)
    (a : ActionType) (k : bool) :
  listeningStartTime s = Some t ->
  currentStreamUrl s = Some u ->
  nonEmpty u = true ->
  closeAction e = Some (a, k) ->
  (e = NativePause -> pauseTriggeredByButton s = false) ->
  sent (step resolveUrl now e s) =
    sent s ++
      (if now - t <? 100 then []
       else [mkDelivery
               (mkLogData u t now (inject_Z (now - t) / inject_Z 1000)%Q a)
               k]) /\
  (forall (now' : Z) (message : option string),
     sent (step resolveUrl now' (PlayRejected message) s) = sent s /\
     listeningStartTime (step resolveUrl now' (PlayRejected message) s)
       = None) /\
  (forall (now' : Z) (i : nat) (r : Settled),
     sent (step resolveUrl now' (Settle i r) s) = sent s).
Proof.
  intros Ht Hu Hne Ha Hflag.
  split; [|split].
  - rewrite (close_sent now e s t u a k Ht Hu Hne Ha Hflag), Qltb_millis.
    reflexivity.
  - intros now' message. destruct s; split; reflexivity.
  - intros now' i r. unfold step, settle.
    destruct (nth_error (pending s) i) as [[c [|]|snap [|]]|];
      try destruct r;
      rewrite ?resume_sent;
      try (destruct (handleStreamCheckFinally_frame snap
                       (set_pending (removeAt i (pending s)) s))
             as (_ & -> & _));
      destruct s; reflexivity.
Qed.

End Properties.

(** * The properties on concrete runs *)

(** ** White space in the URL field *)

(** [trim] takes the white space of every length in bytes from both
    ends, and nothing else. *)
Example trim_examples :
  trim (noBreakSpace ++ " " ++ streamA ++ ideographicSpace ++ byteOrderMark)
    = streamA /\
  trim (" a b " ++ noBreakSpace) = "a b"%string /\
  trim (zeroWidthSpace ++ " ") = zeroWidthSpace /\
  blank (noBreakSpace ++ ideographicSpace ++ " ") = true /\
  blank zeroWidthSpace = false.
Proof. repeat split. Qed.

(** A field that holds a no-break space only is empty for the play
    button and for the stream check. *)
Example no_break_space_field :
  let form := mkCheckForm (Some noBreakSpace) ["connectivity"] None true in
  playerError (step absolute 0 (PlayClick noBreakSpace) initialState) =
    Some "Please enter a stream URL first" /\
  primCalls (step absolute 0 (PlayClick noBreakSpace) initialState) = [] /\
  alerts (step absolute 0 (CheckSubmit form) initialState) =
    ["Please enter a stream URL"] /\
  pending (step absolute 0 (CheckSubmit form) initialState) = [].
Proof. repeat split. Qed.

(** ** The tracker *)

Lemma threshold_filter_witness :
  let s := listening streamA 0 20 in
  listeningStartTime s = Some 0 /\
  currentStreamUrl s = Some streamA /\
  nonEmpty streamA = true /\
  closeAction NativePause = Some (pause, false) /\
  (NativePause = NativePause -> pauseTriggeredByButton s = false) /\
  sent (step absolute 100 NativePause s) =
    [mkDelivery
       (mkLogData streamA 0 100 (inject_Z 100 / inject_Z 1000)%Q pause)
       false] /\
  sent (step absolute 50 NativePause s) = [] /\
  sent (step absolute 60000 (PlayRejected None) s) = [] /\
  listeningStartTime (step absolute 60000 (PlayRejected None) s) = None.
Proof.
  intros s.
  assert (H1 : listeningStartTime s = Some 0) by reflexivity.
  assert (H2 : currentStreamUrl s = Some streamA) by reflexivity.
  assert (H3 : nonEmpty streamA = true) by reflexivity.
  assert (H4 : closeAction NativePause = Some (pause, false)) by reflexivity.
  assert (H5 : NativePause = NativePause -> pauseTriggeredByButton s = false)
    by (intros _; reflexivity).
  destruct (threshold_filter absolute 100 NativePause s 0 streamA pause false
              H1 H2 H3 H4 H5) as (H6 & H7 & _).
  destruct (threshold_filter absolute 50 NativePause s 0 streamA pause false
              H1 H2 H3 H4 H5) as (H8 & _).
  destruct (H7 60000 None) as (H9 & H10).
  exact (conj H1 (conj H2 (conj H3 (conj H4 (conj H5 (conj H6 (conj H8
           (conj H9 H10)))))))).
Defined.

(** C5, as stated, fails on a session that a rejected play promise ends.
    A stream is started and a minute later another one is asked for:
    assigning the new source rejects the play promise of the first
    click, which is still pending when the stream has not come to play,
    and the handler of the rejection drops the session of one minute
    without a record. *)
Lemma rejected_play_drops_session_counterexample :
  let tracked :=
    run absolute [(0, PlayClick streamA); (60000, PlayClick streamB)]
      initialState in
  let closed :=
    step absolute 60000
      (PlayRejected
         (Some "The play() request was interrupted by a new load request."))
      tracked in
  listeningStartTime tracked = Some 0 /\
  active tracked = true /\
  100 <= 60000 - 0 /\
  (minimumSeconds <= listeningTimeSeconds 0 60000)%Q /\
  active closed = false /\
  sent closed = [].
Proof.
  intros tracked closed.
  split; [reflexivity|]. split; [reflexivity|]. split; [lia|].
  split; [apply long_session_millis; lia|]. split; reflexivity.
Qed.

(** The two sessions of the threshold property: 0.05 s posts nothing,
    exactly 0.1 s posts the record. *)
Example threshold_examples :
  sent (step absolute 50 StopClick (listening streamA 0 20)) = [] /\
  sent (step absolute 100 StopClick (listening streamA 0 20)) =
    [sessionRecord streamA 0 100 stop false].
Proof. split; reflexivity. Qed.

(** C1, as stated, fails on a session shorter than the minimum: the
    pause button closes it and no record is posted. *)
Lemma button_pause_short_session_counterexample :
  let s := listening streamA 0 20 in
  let closed :=
    run absolute [(50, PauseClick); (60, NativePause); (70, NativePause)] s in
  active s = true /\
  active closed = false /\
  sent closed = sent s /\
  ~ (exists r, sent closed = sent s ++ [r]).
Proof.
  intros s closed. repeat split.
  intros [r H]. vm_compute in H. discriminate H.
Qed.

Lemma button_pause_counts_once_witness :
  let s := listening streamA 0 20 in
  let closing :=
    [(10250, NativePause); (10300, Settle 0 (Fulfilled true));
     (10350, Settle 0 (Fulfilled true))] in
  let clicked := step absolute 10200 PauseClick s in
  let closed :=
    run absolute (closing ++ nativePauses [10360; 10400]) clicked in
  listeningStartTime s = Some 0 /\
  currentStreamUrl s = Some streamA /\
  nonEmpty streamA = true /\
  SettlesWithPause (List.length (pending s)) closing /\
  pauseTriggeredByButton clicked = true /\
  sent clicked =
    [mkDelivery (mkLogData streamA 0 10200 (inject_Z 10200 / inject_Z 1000)%Q
                   pause) false] /\
  sent closed = sent clicked /\
  listeningStartTime closed = None.
Proof.
  intros s closing clicked closed.
  assert (H1 : listeningStartTime s = Some 0) by reflexivity.
  assert (H2 : currentStreamUrl s = Some streamA) by reflexivity.
  assert (H3 : nonEmpty streamA = true) by reflexivity.
  assert (H4 : SettlesWithPause (List.length (pending s)) closing)
    by (apply SettlesAfterPause, SettlesAnswered).
  destruct (button_pause_counts_once absolute 10200 s 0 streamA closing
              [10360; 10400] H1 H2 H3 H4) as (H5 & H6 & H7 & H8 & _).
  exact (conj H1 (conj H2 (conj H3 (conj H4 (conj H5 (conj H6
           (conj H7 H8))))))).
Defined.

(** While the delivery of the pause button is still in flight the start
    time is still held, so a native pause that comes after the flag has
    been used posts the session again. *)
Example pause_in_flight_example :
  sent (run absolute
          [(5000, PauseClick); (5010, NativePause); (5015, NativePlaying);
           (5020, NativePause)]
          (listening streamA 0 20)) =
    [sessionRecord streamA 0 5000 pause false;
     sessionRecord streamA 0 5020 pause false].
Proof. reflexivity. Qed.





(** C4, as stated, fails: the session starts at the click, so the record
    of the scenario spans 10.2 seconds from time 0, not 10.0 from the
    playing event. *)
Lemma start_at_playing_counterexample :
  let clicked := step absolute 0 (PlayClick streamX) initialState in
  let closed :=
    run absolute [(200, NativePlaying); (10200, PauseClick)] clicked in
  listeningStartTime clicked = Some 0 /\
  sent closed = [sessionRecord streamX 0 10200 pause false] /\
  (listeningTimeSeconds 0 10200 == 102 # 10)%Q /\
  ~ (listeningTimeSeconds 0 10200 == 10)%Q /\
  ~ (exists r, In r (sent closed) /\ start_timestamp (body r) = 200).
Proof.
  intros clicked closed. repeat split.
  - intros H. vm_compute in H. discriminate H.
  - intros [r [Hin Hs]]. vm_compute in Hin.
    destruct Hin as [<- | []]. vm_compute in Hs. discriminate Hs.
Qed.

Lemma tracking_starts_at_play_click_witness :
  let s1 := step absolute 0 (PlayClick streamX) initialState in
  let s2 := step absolute 200 NativePlaying s1 in
  listeningStartTime initialState = None /\
  nonEmpty (trim streamX) = true /\
  listeningStartTime s1 = Some 0 /\
  currentStreamUrl s1 = Some (trim streamX) /\
  listeningStartTime s2 = Some 0.
Proof.
  intros s1 s2.
  assert (H1 : listeningStartTime initialState = None) by reflexivity.
  assert (H2 : nonEmpty (trim streamX) = true) by reflexivity.
  destruct (tracking_starts_at_play_click absolute 0 200 10200 streamX
              initialState H1 H2) as (H3 & H4 & H5 & _).
  exact (conj H1 (conj H2 (conj H3 (conj H4 H5)))).
Defined.


Lemma same_source_play_is_noop_witness :
  let s := run absolute [(0, PlayClick streamA)] initialState in
  let s' := step absolute 300 (PlayClick streamA) s in
  listeningStartTime s = Some 0 /\
  nonEmpty (trim streamA) = true /\
  currentPlayingUrl s = Some (trim streamA) /\
  closureVars s' = closureVars s /\
  sent s' = sent s /\
  primCalls s' = primCalls s ++ [CallPlay].
Proof.
  intros s s'.
  assert (H1 : listeningStartTime s = Some 0) by reflexivity.
  assert (H2 : nonEmpty (trim streamA) = true) by reflexivity.
  assert (H3 : currentPlayingUrl s = Some (trim streamA)) by reflexivity.
  destruct (same_source_play_is_noop absolute 300 streamA s 0 H1 H2 H3)
    as (H4 & H5 & _ & H6 & _).
  exact (conj H1 (conj H2 (conj H3 (conj H4 (conj H5 H6))))).
Defined.

Lemma blank_source_fails_fast_witness :
  let s := listening streamA 0 20 in
  let s' := step absolute 300 (PlayClick "   "%string) s in
  blank "   "%string = true /\
  playerError s' = Some "Please enter a stream URL first"%string /\
  primCalls s' = primCalls s /\
  closureVars s' = closureVars s /\
  sent s' = sent s.
Proof.
  intros s s'.
  assert (H1 : blank "   "%string = true) by reflexivity.
  destruct (blank_source_fails_fast absolute 300 "   "%string s H1)
    as (H2 & _ & H3 & _ & H4 & H5 & _).
  exact (conj H1 (conj H2 (conj H3 (conj H4 H5)))).
Defined.

(** A stream check submitted while a stream plays. *)
Lemma unrelated_actions_leave_tracker_witness :
  let s := listening streamA 0 20 in
  let form := mkCheckForm (Some streamA) ["connectivity"%string] None true in
  let s' := step absolute 3000 (CheckSubmit form) s in
  (nonPlayback (CheckSubmit form) = true \/
   exists i r snap p,
     CheckSubmit form = Settle i r /\
     nth_error (pending s) i = Some (CheckTask snap p)) /\
  closureVars s' = closureVars s /\
  listeningStartTime s' = Some 0 /\
  sent s' = sent s.
Proof.
  intros s form s'.
  assert (H1 : nonPlayback (CheckSubmit form) = true \/
               exists i r snap p,
                 CheckSubmit form = Settle i r /\
                 nth_error (pending s) i = Some (CheckTask snap p))
    by (left; reflexivity).
  destruct (unrelated_actions_leave_tracker absolute 3000 (CheckSubmit form)
              s H1) as (H2 & H3 & _ & H4 & _).
  exact (conj H1 (conj H2 (conj H3 H4))).
Defined.

(** The same check, settled after the element was paused from outside:
    the check asks the element to play and leaves the tracker alone. *)
Example stream_check_resume_example :
  let form := mkCheckForm (Some streamA) ["connectivity"%string] None true in
  let s :=
    run absolute
      [(3000, CheckSubmit form); (4000, VisibilityChange true);
       (4500, NativePause)]
      (listening streamA 0 20) in
  let s' :=
    run absolute
      [(9000, Settle 0 (Fulfilled true)); (9100, Settle 0 (Fulfilled true))]
      s in
  closureVars s' = closureVars s /\
  sent s' = sent s /\
  primCalls s' = primCalls s ++ [CallSetVolume 1; CallSetMuted false; CallPlay].
Proof. repeat split. Qed.



(** * Further properties of the player *)

Section Tracking.

Variable resolveUrl : string -> string.

(** ** What is posted, and when *)

(** What a call of [logListeningSession] posts: nothing, or the record
    of the tracked session, which then lasted long enough. *)
Lemma logListeningSession_posts
    (now : Z) (a : ActionType) (sync : bool) (c : Caller) (s : State) :
  sent (fst (logListeningSession now a sync c s)) = sent s \/
  exists t u,
    listeningStartTime s = Some t /\
    currentStreamUrl s = Some u /\
    nonEmpty u = true /\
    Qltb (listeningTimeSeconds t now) minimumSeconds = false /\
    sent (fst (logListeningSession now a sync c s)) =
      sent s ++ [sessionRecord u t now a sync].
Proof.
  destruct (listeningStartTime s) as [t|] eqn:Ht;
    [|left; rewrite logListeningSession_idle by exact Ht; reflexivity].
  destruct (currentStreamUrl s) as [u|] eqn:Hu;
    [|left; unfold logListeningSession; rewrite Ht, Hu; reflexivity].
  destruct (nonEmpty u) eqn:Hne;
    [|left; unfold logListeningSession; rewrite Ht, Hu, Hne; reflexivity].
  rewrite (logListeningSession_active now a sync c s t u Ht Hu Hne).
  destruct (Qltb _ _) eqn:Hd; [left; destruct s; reflexivity|].
  right. exists t, u. repeat split; try assumption.
  destruct sync; destruct s; reflexivity.
Qed.

(** What one event posts: nothing, or, for an event that closes a
    session, the record of the session tracked when it arrives. *)
Lemma step_posts (now : Z) (e : Event) (s : State) :
  sent (step resolveUrl now e s) = sent s \/
  exists t u a k,
    listeningStartTime s = Some t /\
    currentStreamUrl s = Some u /\
    nonEmpty u = true /\
    Qltb (listeningTimeSeconds t now) minimumSeconds = false /\
    closeAction e = Some (a, k) /\
    sent (step resolveUrl now e s) = sent s ++ [sessionRecord u t now a k].
Proof.
  assert (Hlog : forall a k c (s0 s1 : State),
            sent s0 = sent s ->
            listeningStartTime s0 = listeningStartTime s ->
            currentStreamUrl s0 = currentStreamUrl s ->
            closeAction e = Some (a, k) ->
            sent s1 = sent (fst (logListeningSession now a k c s0)) ->
            sent s1 = sent s \/
            exists t u a k,
              listeningStartTime s = Some t /\
              currentStreamUrl s = Some u /\
              nonEmpty u = true /\
              Qltb (listeningTimeSeconds t now) minimumSeconds = false /\
              closeAction e = Some (a, k) /\
              sent s1 = sent s ++ [sessionRecord u t now a k]).
  { intros a k c s0 s1 H1 H2 H3 H4 H5.
    destruct (logListeningSession_posts now a k c s0)
      as [H | (t & u & Ht & Hu & Hne & Hd & H)].
    - left. congruence.
    - right. exists t, u, a, k. rewrite <- H1, <- H2, <- H3.
      repeat split; try assumption. congruence. }
  destruct e.
  - left. apply play_click_frame.
  - left. destruct s; reflexivity.
  - left. destruct s; reflexivity.
  - apply (Hlog pause false ByPauseBtn (set_pauseTriggeredByButton true s));
      try (destruct s; reflexivity).
    unfold step, pauseBtnClick. apply awaitLog_sent.
  - apply (Hlog stop false ByStopBtn s); try reflexivity.
    unfold step, stopBtnClick. apply awaitLog_sent.
  - left. destruct s; reflexivity.
  - left. destruct s; reflexivity.
  - left. destruct s; reflexivity.
  - left. destruct s; reflexivity.
  - left. open_state s. unfold_handlers. simpl.
    destruct sp as [sr p en ct v m er]. simpl.
    destruct (nonEmpty sr) eqn:E; simpl; rewrite ?E; destruct lst; simpl;
      rewrite ?E; try destruct (truthy csu); reflexivity.
  - unfold step, onPause.
    destruct (pauseTriggeredByButton (elementNow (nowPaused true) s)) eqn:Hf;
      [|destruct (listeningStartTime (elementNow (nowPaused true) s)) eqn:Hl].
    + left. destruct s. simpl. destruct (currentTime _ =? 0); reflexivity.
    + apply (Hlog pause false Unawaited (elementNow (nowPaused true) s));
        try (destruct s; reflexivity).
      destruct (fst (logListeningSession _ _ _ _ _)). simpl.
      destruct (currentTime _ =? 0); reflexivity.
    + left. destruct s. simpl. destruct (currentTime _ =? 0); reflexivity.
  - apply (Hlog stop false ByEnded (elementNow nowEnded s));
      try (destruct s; reflexivity).
    unfold step, onEnded. apply awaitLog_sent.
  - unfold step, onError.
    destruct (listeningStartTime (elementNow (nowFailed code) s)).
    + apply (Hlog stop false ByError (elementNow (nowFailed code) s));
        try (destruct s; reflexivity).
      apply awaitLog_sent.
    + left. destruct s; reflexivity.
  - left. destruct s; reflexivity.
  - unfold step, onBeforeUnload. destruct (listeningStartTime s) eqn:Ht;
      [destruct (truthy (currentStreamUrl s))|];
      [|left; reflexivity..].
    apply (Hlog stop true Unawaited s); first [reflexivity | assumption].
  - unfold step, onVisibilityChange. destruct hidden;
      [destruct (listeningStartTime s) eqn:Ht;
       [destruct (truthy (currentStreamUrl s))|]|];
      [|left; reflexivity..].
    apply (Hlog pause true Unawaited s); first [reflexivity | assumption].
  - left. destruct s; reflexivity.
  - left. apply handleStreamCheck_frame.
  - left. unfold step, settle.
    destruct (nth_error (pending s) i) as [[c [|]|snap [|]]|];
      try destruct r;
      rewrite ?resume_sent;
      try (destruct (handleStreamCheckFinally_frame snap
                       (set_pending (removeAt i (pending s)) s))
             as (_ & -> & _));
      destruct s; reflexivity.
Qed.


(** X1.  Along any run the requests already sent stay as they are, and each
    event adds at most one. *)
Theorem sent_only_grows (trace : list (Z * Event)) (s : State) :
  exists l, sent (run resolveUrl trace s) = sent s ++ l /\
            (List.length l <= List.length trace)%nat.
Proof.
  revert s. induction trace as [|[now e] trace IH]; intros s.
  - exists []. simpl. rewrite app_nil_r. auto.
  - destruct (IH (step resolveUrl now e s)) as (l & Hl & Hn).
    change (run resolveUrl ((now, e) :: trace) s)
      with (run resolveUrl trace (step resolveUrl now e s)).
    destruct (step_posts now e s)
      as [H | (t & u & a & k & _ & _ & _ & _ & _ & H)]; rewrite H in Hl.
    + exists l. split; [exact Hl|simpl; lia].
    + exists (sessionRecord u t now a k :: l).
      rewrite <- app_assoc in Hl. split; [exact Hl|simpl; lia].
Qed.

(** X2.  With no session tracked, or none with a stream URL, no event posts
    anything. *)
Theorem nothing_posted_when_idle (now : Z) (e : Event) (s : State) :
  active s = false ->
  sent (step resolveUrl now e s) = sent s.
Proof.
  intros Hidle.
  destruct (step_posts now e s)
    as [H | (t & u & a & k & Ht & Hu & Hne & _)]; [exact H|].
  unfold active in Hidle. rewrite Ht, Hu in Hidle. simpl in Hidle.
  congruence.
Qed.

(** X3.  An event that posts is one that closes a session, the record is the
    one of the session tracked when the event arrives, ending at the time
    of the event, and only the page-hidden and unload events post with
    [keepalive]. *)
Theorem posting_event_closes_session (now : Z) (e : Event) (s : State) :
  sent (step resolveUrl now e s) <> sent s ->
  exists t u a k,
    listeningStartTime s = Some t /\
    currentStreamUrl s = Some u /\
    closeAction e = Some (a, k) /\
    sent (step resolveUrl now e s) = sent s ++ [sessionRecord u t now a k] /\
    (k = true <-> e = BeforeUnload \/ e = VisibilityChange true).
Proof.
  intros Hneq.
  destruct (step_posts now e s)
    as [H | (t & u & a & k & Ht & Hu & _ & _ & Ha & H)];
    [contradiction|].
  exists t, u, a, k. repeat split; try assumption.
  - intros ->. destruct e; try discriminate Ha; auto.
    destruct hidden; [auto|discriminate Ha].
  - intros [-> | ->]; simpl in Ha; congruence.
Qed.


(** ** The play button and what came before *)

Lemma trimStart_nonblank (s : string) :
  blank s = false ->
  exists c r, trimStart s = String c r /\ blank (String c r) = false.
Proof.
  intros H.
  destruct (trimStart_spec (String.length s) s) as [Hb _]; [lia|].
  rewrite H in Hb. destruct (trimStart s) as [|c r]; [discriminate Hb|].
  exists c, r. auto.
Qed.

Lemma trim_nonblank (s : string) :
  blank s = false -> nonEmpty (trim s) = true.
Proof.
  intros H. destruct (trimStart_nonblank s H) as (c & r & Hs & Hc).
  unfold trim. rewrite Hs. cbn [trimEnd]. rewrite Hc. reflexivity.
Qed.

(** A field is blank exactly when trimming leaves nothing. *)
Lemma nonEmpty_trim (s : string) : nonEmpty (trim s) = negb (blank s).
Proof.
  destruct (blank s) eqn:H.
  - rewrite (trim_blank s H). reflexivity.
  - apply trim_nonblank. exact H.
Qed.

(** What a play click with something in the field does to the audio
    element. *)
Lemma play_click_element (now : Z) (value : string) (s : State) :
  nonEmpty (trim value) = true ->
  let s' := step resolveUrl now (PlayClick value) s in
  playerError s' = None /\
  currentPlayingUrl s' = Some (trim value) /\
  ((currentPlayingUrl s = Some (trim value) /\
    primCalls s' = primCalls s ++ [CallPlay] /\
    src (streamPlayer s') = src (streamPlayer s)) \/
   (currentPlayingUrl s <> Some (trim value) /\
    primCalls s' = primCalls s ++ [CallSetSrc (trim value); CallPlay] /\
    src (streamPlayer s') = resolveUrl (trim value))).
Proof.
  intros Hv s'. subst s'. open_state s. unfold_handlers. simpl.
  rewrite Hv. simpl.
  destruct cpu as [c|]; simpl.
  - destruct (String.eqb_spec c (trim value)) as [->|Hc].
    + rewrite Hv. simpl. destruct lst; simpl; repeat split; left; auto.
    + rewrite orb_true_r. destruct lst; simpl; rewrite <- app_assoc;
        repeat split; right; repeat split; congruence.
  - destruct lst; simpl; rewrite <- app_assoc; repeat split; right;
      repeat split; congruence.
Qed.


(** An awaited close, settled: the session is gone and the rest of the
    handler has run, whether or not there was something to post. *)
Lemma awaitLog_settled
    (now : Z) (a : ActionType) (c : Caller) (s : State)
    (settled : list (Z * Event)) :
  listeningStartTime s = None \/ truthy (currentStreamUrl s) = true ->
  Settles (List.length (pending s)) settled ->
  exists s0,
    run resolveUrl settled (awaitLog now a c s) = resume c s0 /\
    listeningStartTime s0 = None /\
    pending s0 = pending s /\
    primCalls s0 = primCalls s /\
    streamPlayer s0 = streamPlayer s /\
    currentPlayingUrl s0 = currentPlayingUrl s /\
    currentStreamUrl s0 = currentStreamUrl s.
Proof.
  intros Hs Hset.
  destruct (listeningStartTime s) as [t|] eqn:Ht.
  - destruct Hs as [Hs|Hs]; [discriminate Hs|].
    destruct (currentStreamUrl s) as [u|] eqn:Hu; [|discriminate Hs].
    simpl in Hs.
    destruct (Qltb (listeningTimeSeconds t now) minimumSeconds) eqn:Hd.
    + rewrite (awaitLog_short now a c s t u Ht Hu Hs Hd).
      exists (set_listeningStartTime None s).
      rewrite (settles_nothing resolveUrl)
        by (destruct c; destruct s; exact Hset).
      destruct s; simpl in *; auto 10.
    + rewrite (awaitLog_long now a c s t u Ht Hu Hs Hd).
      rewrite (settles_delivery resolveUrl c _ (pending s))
        by (destruct s; first [reflexivity | exact Hset]).
      eexists. split; [reflexivity|]. destruct s; simpl in *; auto 10.
  - rewrite (awaitLog_idle now a c s Ht).
    exists s.
    rewrite (settles_nothing resolveUrl)
      by (destruct c; destruct s; exact Hset).
    auto 10.
Qed.

(** X6.  The stop button forgets the loaded source: once its delivery has
    settled nothing is tracked or loaded, the element was paused and
    rewound, and the next play click, for the same URL or another,
    assigns the source again and starts a session at its own time. *)
Theorem stop_makes_next_play_fresh
    (now now' : Z) (value : string) (s : State)
    (settled : list (Z * Event)) :
  listeningStartTime s = None \/ truthy (currentStreamUrl s) = true ->
  Settles (List.length (pending s)) settled ->
  blank value = false ->
  let stopped := run resolveUrl ((now, StopClick) :: settled) s in
  let replayed := step resolveUrl now' (PlayClick value) stopped in
  currentPlayingUrl stopped = None /\
  currentStreamUrl stopped = None /\
  listeningStartTime stopped = None /\
  isPlaying stopped = false /\
  pending stopped = pending s /\
  primCalls stopped = primCalls s ++ [CallPause; CallSeekZero] /\
  primCalls replayed =
    primCalls stopped ++ [CallSetSrc (trim value); CallPlay] /\
  listeningStartTime replayed = Some now' /\
  currentStreamUrl replayed = Some (trim value).
Proof.
  intros Hs Hset Hb stopped replayed.
  apply trim_nonblank in Hb.
  assert (Hst : currentPlayingUrl stopped = None /\
                currentStreamUrl stopped = None /\
                listeningStartTime stopped = None /\
                isPlaying stopped = false /\
                pending stopped = pending s /\
                primCalls stopped = primCalls s ++ [CallPause; CallSeekZero]).
  { subst stopped.
    change (run resolveUrl ((now, StopClick) :: settled) s)
      with (run resolveUrl settled (awaitLog now stop ByStopBtn s)).
    destruct (awaitLog_settled now stop ByStopBtn s settled Hs Hset)
      as (s0 & -> & H1 & H2 & H3 & _).
    destruct s0; simpl in *. subst. rewrite <- app_assoc. auto 10. }
  destruct Hst as (H1 & H2 & H3 & H4 & H5 & H6).
  destruct (play_click_starts resolveUrl now' value stopped H3 Hb) as (H7 & H8).
  destruct (play_click_element now' value stopped Hb)
    as (_ & _ & [(Hc & _) | (_ & H9 & _)]);
    [rewrite H1 in Hc; discriminate Hc|].
  fold replayed in H7, H8, H9. auto 10.
Qed.


(** X8.  Hiding the page closes the session and nothing else: the element is
    not called and keeps playing; showing the page again changes
    nothing, so no event posts until tracking starts again, which the
    next playing event does. *)
Theorem hidden_page_stops_tracking_only
    (now now2 now3 : Z) (s : State) (t : Z) (u : string) :
  listeningStartTime s = Some t ->
  currentStreamUrl s = Some u ->
  nonEmpty u = true ->
  let hid := step resolveUrl now (VisibilityChange true) s in
  let back := step resolveUrl now2 (VisibilityChange false) hid in
  listeningStartTime hid = None /\
  currentStreamUrl hid = Some u /\
  primCalls hid = primCalls s /\
  streamPlayer hid = streamPlayer s /\
  isPlaying hid = isPlaying s /\
  pending hid = pending s /\
  back = hid /\
  (forall e, sent (step resolveUrl now3 e back) = sent hid) /\
  (nonEmpty (src (streamPlayer s)) = true ->
   listeningStartTime (step resolveUrl now3 NativePlaying back) = Some now3 /\
   currentStreamUrl (step resolveUrl now3 NativePlaying back) =
     Some (src (streamPlayer s))).
Proof.
  intros Ht Hu Hne hid back.
  assert (Hhid : listeningStartTime hid = None /\
                 currentStreamUrl hid = Some u /\
                 primCalls hid = primCalls s /\
                 streamPlayer hid = streamPlayer s /\
                 isPlaying hid = isPlaying s /\
                 pending hid = pending s).
  { subst hid. open_state s. unfold_handlers. simpl. rewrite Hne.
    run_log t u Hne. destruct (Qltb _ _); simpl; auto 10. }
  destruct Hhid as (H1 & H2 & H3 & H4 & H5 & H6).
  assert (Hback : back = hid) by reflexivity.
  clearbody back hid. subst back.
  refine (conj H1 (conj H2 (conj H3 (conj H4 (conj H5 (conj H6
            (conj eq_refl (conj _ _)))))))).
  - intros e.
    destruct (step_posts now3 e hid)
      as [H | (t' & _ & _ & _ & Ht' & _)]; [exact H|congruence].
  - rewrite <- H4. intros Hsrc. clear H2 H3 H4 H5 H6 Ht Hu.
    open_state hid. unfold_handlers. simpl.
    destruct sp as [sr p en ct v m er]. simpl in *. rewrite Hsrc. simpl.
    rewrite Hsrc. auto.
Qed.

(** ** The stream check *)

Lemma nth_error_middle {A} (l r : list A) (x : A) :
  nth_error (l ++ x :: r) (List.length l) = Some x.
Proof. induction l as [|y l IH]; simpl; [reflexivity|exact IH]. Qed.

Lemma removeAt_middle {A} (l r : list A) (x : A) :
  removeAt (List.length l) (l ++ x :: r) = l ++ r.
Proof. induction l as [|y l IH]; simpl; [reflexivity|now rewrite IH]. Qed.

Lemma replaceAt_middle {A} (l r : list A) (x y : A) :
  replaceAt (List.length l) y (l ++ x :: r) = l ++ y :: r.
Proof. induction l as [|z l IH]; simpl; [reflexivity|now rewrite IH]. Qed.

(** A stream check among the suspended tasks runs its [finally] block
    once its request has settled, whichever way. *)
Lemma settles_check
    (snap : Snapshot) (s : State) (before after : list Task)
    (tr : list (Z * Event)) :
  pending s = before ++ CheckTask snap AwaitFetch :: after ->
  Settles (List.length before) tr ->
  run resolveUrl tr s =
    handleStreamCheckFinally snap (set_pending (before ++ after) s).
Proof.
  intros Hp Hs. destruct Hs as [t1|t1 t2 ok r]; simpl; unfold settle.
  - rewrite Hp, nth_error_middle, removeAt_middle. reflexivity.
  - rewrite Hp, nth_error_middle, replaceAt_middle.
    assert (Hq : pending (set_pending
                            (before ++ CheckTask snap AwaitBody :: after) s)
                 = before ++ CheckTask snap AwaitBody :: after)
      by (destruct s; reflexivity).
    rewrite Hq, nth_error_middle, removeAt_middle.
    destruct s; reflexivity.
Qed.

Lemma durationAccepted_bounds (d : option Z) :
  durationAccepted d = true <-> exists n, d = Some n /\ 10 <= n <= 300.
Proof.
  unfold durationAccepted. split.
  - destruct d as [n|]; [|discriminate]. intros H.
    apply andb_true_iff in H as [H H3]. apply andb_true_iff in H as [_ H2].
    exists n. split; [reflexivity|]. lia.
  - intros (n & -> & Hn).
    destruct (Z.eqb_spec n 0); [lia|]. simpl.
    apply andb_true_iff. split; lia.
Qed.

Lemma selected_In (name : string) (tests : list string) :
  selected name tests = true <-> In name tests.
Proof.
  unfold selected. rewrite existsb_exists. split.
  - intros (x & Hx & He). apply String.eqb_eq in He. subst. exact Hx.
  - intros H. exists name. split; [exact H|apply String.eqb_refl].
Qed.

(** The stream check sends its request for a valid submission, and for
    no other. *)
Lemma handleStreamCheck_cases (form : CheckForm) (s : State) :
  (validSubmission form /\
   handleStreamCheck form s =
     set_pending
       (pending s ++ [CheckTask (saveAudioState (streamPlayer s)) AwaitFetch])
       (set_submitDisabled true s)) \/
  (~ validSubmission form /\
   pending (handleStreamCheck form s) = pending s /\
   (alerts (handleStreamCheck form s) = alerts s \/
    exists m, alerts (handleStreamCheck form s) = alerts s ++ [m]) /\
   (submitDisabled (handleStreamCheck form s) = submitDisabled s \/
    submitDisabled (handleStreamCheck form s) = false)).
Proof.
  unfold handleStreamCheck.
  destruct (urlInput form) as [value|] eqn:Hu.
  2:{ right. split; [|auto].
      intros ((v & Hv & _) & _). congruence. }
  rewrite nonEmpty_trim, negb_involutive.
  destruct (blank value) eqn:Hb.
  { right. split; [|destruct s; simpl; eauto 6].
    intros ((v & Hv & Hbv) & _). congruence. }
  fold (selected "ad_detection" (checkedTests form)).
  destruct (selected "ad_detection" (checkedTests form)) eqn:Had.
  - destruct (adDurationInput form) as [d|] eqn:Hd.
    + destruct (durationAccepted d) eqn:Hacc; simpl.
      * destruct (checkedTests form) as [|x l] eqn:Ht;
          [discriminate Had|].
        destruct (statusElements form) eqn:He.
        -- left. split; [|destruct s; reflexivity].
           repeat split; try congruence; eauto.
           intros _ d' Hd'. rewrite Hd in Hd'. injection Hd' as <-.
           apply durationAccepted_bounds. exact Hacc.
        -- right. split; [|destruct s; simpl; eauto 6].
           intros (_ & _ & He' & _). congruence.
      * right. split; [|destruct s; simpl; eauto 6].
        intros (_ & _ & _ & Hv). apply selected_In in Had.
        destruct (Hv Had d Hd) as (n & -> & Hn).
        assert (durationAccepted (Some n) = true)
          by (apply durationAccepted_bounds; eauto).
        congruence.
    + simpl.
      destruct (checkedTests form) as [|x l] eqn:Ht;
        [unfold selected in Had; discriminate Had|].
      destruct (statusElements form) eqn:He.
      * left. split; [|destruct s; reflexivity].
        repeat split; try congruence; eauto.
        all: try (intros _ d' Hd'; congruence).
      * right. split; [|destruct s; simpl; eauto 6].
        intros (_ & _ & He' & _). congruence.
  - simpl.
    destruct (checkedTests form) as [|x l] eqn:Ht.
    { right. split; [|destruct s; simpl; eauto 6].
      intros (_ & Hne & _). congruence. }
    destruct (statusElements form) eqn:He.
    + left. split; [|destruct s; reflexivity].
      repeat split; try congruence; eauto.
      all: try (intros Hin; rewrite <- Ht in Had; apply selected_In in Hin;
                congruence).
    + right. split; [|destruct s; simpl; eauto 6].
      intros (_ & _ & He' & _). congruence.
Qed.

(** X9.  The stream check starts a request exactly for a valid submission: a
    URL that is not blank, at least one test, the status elements
    present and, with ad detection selected and its field present, a
    duration from 10 to 300.  Then the submit button is disabled and
    the audio state saved; otherwise nothing is suspended and at most
    one alert is raised. *)
Theorem check_submission_validated (now : Z) (form : CheckForm) (s : State) :
  let s' := step resolveUrl now (CheckSubmit form) s in
  (validSubmission form ->
   pending s' =
     pending s ++ [CheckTask (saveAudioState (streamPlayer s)) AwaitFetch] /\
   submitDisabled s' = true /\
   alerts s' = alerts s) /\
  (~ validSubmission form ->
   pending s' = pending s /\
   (alerts s' = alerts s \/ exists m, alerts s' = alerts s ++ [m]) /\
   (submitDisabled s' = submitDisabled s \/ submitDisabled s' = false)).
Proof.
  intros s'. subst s'. change (step resolveUrl now (CheckSubmit form) s)
    with (handleStreamCheck form s).
  destruct (handleStreamCheck_cases form s) as [(Hv & H) | (Hn & H)].
  - split; [|contradiction]. intros _. rewrite H. destruct s; auto.
  - split; [contradiction|]. intros _. exact H.
Qed.

(** X10.  However the request of a stream check settles, the submit button is
    enabled again and the check is no longer suspended; the player's
    variables and the requests sent are as before the submission. *)
Theorem check_completion_reenables_submit
    (now : Z) (form : CheckForm) (s : State) (settled : list (Z * Event)) :
  validSubmission form ->
  Settles (List.length (pending s)) settled ->
  let done := run resolveUrl ((now, CheckSubmit form) :: settled) s in
  submitDisabled done = false /\
  pending done = pending s /\
  alerts done = alerts s /\
  closureVars done = closureVars s /\
  sent done = sent s.
Proof.
  intros Hv Hset done. subst done.
  change (run resolveUrl ((now, CheckSubmit form) :: settled) s)
    with (run resolveUrl settled (handleStreamCheck form s)).
  destruct (handleStreamCheck_cases form s) as [(_ & H) | (Hn & _)];
    [|contradiction].
  rewrite H.
  rewrite (settles_check (saveAudioState (streamPlayer s)) _ (pending s) [])
    by (destruct s; first [reflexivity | exact Hset]).
  destruct (handleStreamCheckFinally_frame (saveAudioState (streamPlayer s))
              (set_pending (pending s ++ [])
                 (set_pending
                    (pending s ++
                     [CheckTask (saveAudioState (streamPlayer s)) AwaitFetch])
                    (set_submitDisabled true s))))
    as (H1 & H2 & _).
  rewrite H1, H2. unfold handleStreamCheckFinally.
  repeat match goal with
         | |- context [if ?b then _ else _] => destruct b
         end;
    destruct s; simpl; rewrite ?app_nil_r; auto.
Qed.

(** The source test of the [finally] block accepts an unchanged
    source. *)
Lemma srcMatches_same (a : Audio) (snap : Snapshot) :
  src a = currentSrc snap -> srcMatches a snap = true.
Proof.
  intros H. unfold srcMatches. rewrite H, String.eqb_refl. reflexivity.
Qed.

(** X11.  The volume and the mute setting chosen while a stream check is
    running, for a stream that was playing when it was submitted, are
    put back to what they were at the submission when the check ends. *)
Theorem check_reverts_volume_and_mute
    (n1 n2 n3 : Z) (form : CheckForm) (v : Q) (s : State)
    (settled : list (Z * Event)) :
  validSubmission form ->
  audible (streamPlayer s) ->
  Settles (List.length (pending s)) settled ->
  let changed :=
    run resolveUrl
      [(n1, CheckSubmit form); (n2, VolumeInput v); (n3, MuteClick)] s in
  let done := run resolveUrl settled changed in
  volume (streamPlayer changed) = v /\
  muted (streamPlayer changed) = negb (muted (streamPlayer s)) /\
  volume (streamPlayer done) = volume (streamPlayer s) /\
  muted (streamPlayer done) = muted (streamPlayer s) /\
  paused (streamPlayer done) = false /\
  primCalls done =
    primCalls changed ++
      [CallSetVolume (volume (streamPlayer s));
       CallSetMuted (muted (streamPlayer s))].
Proof.
  intros Hv (Hp & He & Hsrc) Hset changed done. subst done changed.
  change (run resolveUrl
            [(n1, CheckSubmit form); (n2, VolumeInput v); (n3, MuteClick)] s)
    with (muteBtnClick (onVolumeInput v (handleStreamCheck form s))).
  destruct (handleStreamCheck_cases form s) as [(_ & ->) | (Hn & _)];
    [|contradiction].
  rewrite (settles_check (saveAudioState (streamPlayer s)) _ (pending s) [])
    by (destruct s; first [reflexivity | exact Hset]).
  destruct s as [ip cpu ipi lst csu ilp flag [sr p en ct vol m er]
                 st pe sd al pc sn pd].
  simpl in Hp, He, Hsrc. subst p en.
  unfold handleStreamCheckFinally, saveAudioState. simpl.
  rewrite Hsrc. simpl.
  rewrite srcMatches_same by reflexivity. simpl.
  rewrite <- !app_assoc. repeat split.
Qed.

(** X12.  A stream that was playing when a check was submitted and has been
    paused since, from wherever, is asked to play again when the check
    ends, after its volume and mute setting have been put back; the
    call unpauses the element unless its source had been found
    unusable. *)
Theorem check_resumes_paused_playback
    (n1 n2 : Z) (form : CheckForm) (s : State) (settled : list (Z * Event)) :
  validSubmission form ->
  audible (streamPlayer s) ->
  Settles (List.length (pending s)) settled ->
  let halted :=
    run resolveUrl [(n1, CheckSubmit form); (n2, NativePause)] s in
  let done := run resolveUrl settled halted in
  paused (streamPlayer halted) = true /\
  primCalls halted = primCalls s /\
  paused (streamPlayer done) = sourceUnusable (streamPlayer s) /\
  primCalls done =
    primCalls s ++
      [CallSetVolume (volume (streamPlayer s));
       CallSetMuted (muted (streamPlayer s)); CallPlay] /\
  closureVars done = closureVars halted /\
  sent done = sent halted.
Proof.
  intros Hv (Hp & He & Hsrc) Hset halted done. subst done halted.
  change (run resolveUrl [(n1, CheckSubmit form); (n2, NativePause)] s)
    with (onPause n2 (elementNow (nowPaused true) (handleStreamCheck form s))).
  destruct (handleStreamCheck_cases form s) as [(_ & ->) | (Hn & _)];
    [|contradiction].
  destruct s as [ip cpu ipi lst csu ilp flag [sr p en ct vol m er]
                 st pe sd al pc sn pd].
  simpl in Hp, He, Hsrc, Hset. subst p en.
  set (snap := saveAudioState (mkAudio sr false false ct vol m er)).
  assert (Hfin : forall s0 : State,
            streamPlayer s0 = mkAudio sr true false ct vol m er ->
            primCalls s0 = pc ->
            paused (streamPlayer (handleStreamCheckFinally snap s0)) =
              sourceUnusable (mkAudio sr false false ct vol m er) /\
            primCalls (handleStreamCheckFinally snap s0) =
              pc ++ [CallSetVolume vol; CallSetMuted m; CallPlay] /\
            closureVars (handleStreamCheckFinally snap s0) = closureVars s0 /\
            sent (handleStreamCheckFinally snap s0) = sent s0).
  { intros s0 Hs0 Hpc. destruct s0. simpl in Hs0, Hpc. subst.
    unfold handleStreamCheckFinally, snap, saveAudioState. simpl.
    rewrite Hsrc. simpl. rewrite srcMatches_same by reflexivity. simpl.
    rewrite <- !app_assoc. repeat split.
    unfold sourceUnusable. simpl. destruct er as [[| | | |]|]; reflexivity. }
  unfold onPause, elementNow. simpl.
  destruct flag; [|destruct lst as [t|]]; simpl.
  all: try (unfold logListeningSession; simpl;
            destruct csu as [u|]; simpl; [destruct (nonEmpty u); simpl;
              [destruct (Qltb _ _); simpl|]|]).
  all: destruct (ct =? 0); simpl.
  all: try (rewrite (settles_check snap _ pd [])
              by first [reflexivity | exact Hset];
            split; [reflexivity|]; split; [reflexivity|];
            match goal with
            | |- context [handleStreamCheckFinally _ ?s0] =>
                destruct (Hfin s0 eq_refl eq_refl) as (F1 & F2 & F3 & F4)
            end;
            exact (conj F1 (conj F2 (conj F3 F4)))).
  all: rewrite (settles_check snap _ pd [LogTask Unawaited AwaitFetch])
         by first [simpl; rewrite <- app_assoc; reflexivity | exact Hset];
       split; [reflexivity|]; split; [reflexivity|];
       match goal with
       | |- context [handleStreamCheckFinally _ ?s0] =>
           destruct (Hfin s0 eq_refl eq_refl) as (F1 & F2 & F3 & F4)
       end;
       exact (conj F1 (conj F2 (conj F3 F4))).
Qed.

End Tracking.

(** * Properties of the rest of the script *)

(** ** Strings *)

Lemma append_nil_r (s : string) : (s ++ "")%string = s.
Proof. induction s as [|c r IH]; simpl; [reflexivity|now rewrite IH]. Qed.

Lemma append_assoc (s1 s2 s3 : string) :
  ((s1 ++ s2) ++ s3)%string = (s1 ++ (s2 ++ s3))%string.
Proof. induction s1 as [|c r IH]; simpl; [reflexivity|now rewrite IH]. Qed.

Lemma prefix_app (s t : string) : prefix s (s ++ t) = true.
Proof.
  induction s as [|c r IH]; simpl; [destruct t; reflexivity|].
  destruct (ascii_dec c c) as [_|H]; [exact IH|contradiction].
Qed.

Lemma includes_unfold (needle hay : string) :
  includes needle hay =
    prefix needle hay ||
    match hay with
    | EmptyString => false
    | String _ r => includes needle r
    end.
Proof. destruct hay; reflexivity. Qed.

Lemma includes_app (needle before after : string) :
  includes needle (before ++ needle ++ after) = true.
Proof.
  induction before as [|c r IH].
  - simpl append. rewrite includes_unfold, prefix_app. reflexivity.
  - simpl append. rewrite includes_unfold. simpl. rewrite IH.
    apply orb_true_r.
Qed.

Lemma includes_empty (hay : string) : includes EmptyString hay = true.
Proof. rewrite includes_unfold. destruct hay; reflexivity. Qed.

Lemma splitPop_no_slash (acc file : string) :
  includes "/" file = false -> splitPop acc file = (acc ++ file)%string.
Proof.
  revert acc. induction file as [|c r IH]; intros acc H; simpl.
  - symmetry. apply append_nil_r.
  - rewrite includes_unfold in H. apply orb_false_iff in H as [H1 H2].
    simpl in H1. destruct (ascii_dec "/" c) as [<-|Hc].
    + destruct r; discriminate H1.
    + destruct (Ascii.eqb_spec c "/") as [->|_]; [contradiction|].
      rewrite (IH _ H2), append_assoc. reflexivity.
Qed.

Lemma splitPop_last_segment (acc dir file : string) :
  includes "/" file = false ->
  splitPop acc (dir ++ "/" ++ file) = file.
Proof.
  intros H. revert acc. induction dir as [|c r IH]; intros acc; simpl.
  - apply (splitPop_no_slash EmptyString file H).
  - destruct (Ascii.eqb c "/"); apply IH.
Qed.

(** ** The source test of the stream check *)

(** X13.  The [finally] block of the stream check takes the source for
    unchanged as soon as it contains the last path segment of the one
    saved: another address with the same file name matches, and a saved
    source that ends in a slash matches every source. *)
Theorem srcMatches_by_last_segment
    (a : Audio) (snap : Snapshot) (dir file before after : string) :
  includes "/" file = false ->
  currentSrc snap = (dir ++ "/" ++ file)%string ->
  src a = (before ++ file ++ after)%string ->
  srcMatches a snap = true.
Proof.
  intros Hf Hs Ha. unfold srcMatches.
  rewrite Hs, (splitPop_last_segment EmptyString dir file Hf), Ha.
  rewrite includes_app.
  assert (Hne : nonEmpty (dir ++ "/" ++ file) = true)
    by (destruct dir; reflexivity).
  rewrite Hne. simpl. apply orb_true_r.
Qed.

(** ** The API address *)

Lemma dropFinalSlash_app (p : string) :
  dropFinalSlash (p ++ "/") = p.
Proof.
  induction p as [|c r IH]; [reflexivity|].
  simpl append. simpl dropFinalSlash.
  destruct (r ++ "/")%string eqn:E.
  - destruct r; discriminate E.
  - rewrite IH. reflexivity.
Qed.

Lemma dropFinalSlash_keep (p : string) :
  (forall q, p <> (q ++ "/")%string) -> dropFinalSlash p = p.
Proof.
  induction p as [|c r IH]; intros H; [reflexivity|].
  simpl. destruct r as [|c2 r2].
  - destruct (Ascii.eqb_spec c "/") as [->|_]; [|reflexivity].
    exfalso. apply (H EmptyString). reflexivity.
  - rewrite IH; [reflexivity|].
    intros q Hq. apply (H (String c q)). simpl. rewrite Hq. reflexivity.
Qed.

(** X14.  The API address always ends in "/api"; a parameter that is absent or
    empty gives a default, and one final slash of the parameter is
    dropped: "p/" and "p" give the same address, "p/api". *)
Theorem api_base_url_shape (apiParam : option string) (hostname p : string) :
  (exists base, getApiBaseUrl apiParam hostname = (base ++ "/api")%string) /\
  getApiBaseUrl (Some EmptyString) hostname = getApiBaseUrl None hostname /\
  getApiBaseUrl (Some (p ++ "/")%string) hostname = (p ++ "/api")%string /\
  (p <> EmptyString -> (forall q, p <> (q ++ "/")%string) ->
   getApiBaseUrl (Some p) hostname = (p ++ "/api")%string).
Proof.
  repeat split.
  - unfold getApiBaseUrl.
    destruct apiParam as [q|]; simpl;
      [destruct (nonEmpty q); [eexists; reflexivity|]|];
      (destruct (_ || _);
       [exists "http://localhost:5000"%string
       |exists "http://YOUR-RASPBERRY-PI-IP:5000"%string]; reflexivity).
  - unfold getApiBaseUrl.
    assert (Hne : truthy (Some (p ++ "/")%string) = true)
      by (destruct p; reflexivity).
    rewrite Hne, dropFinalSlash_app. reflexivity.
  - intros Hp Hq. unfold getApiBaseUrl.
    assert (Hne : truthy (Some p) = true)
      by (destruct p; [contradiction|reflexivity]).
    rewrite Hne, (dropFinalSlash_keep p Hq). reflexivity.
Qed.

Lemma prefix_api_app (q : string) :
  q <> EmptyString ->
  prefix "/api" q = false ->
  prefix "/api" (q ++ "/api") = false.
Proof.
  intros Hq H.
  destruct q as [|c1 [|c2 [|c3 [|c4 r]]]]; [contradiction|..];
    cbn -[ascii_dec] in *;
    repeat (match goal with
            | |- context [ascii_dec ?x ?y] =>
                destruct (ascii_dec x y); try discriminate; subst
            | H : context [ascii_dec ?x ?y] |- _ =>
                destruct (ascii_dec x y); try discriminate; subst
            end; cbn -[ascii_dec] in *);
    try reflexivity; try discriminate.
  destruct r; discriminate.
Qed.

Lemma replaceFirst_api (q : string) :
  includes "/api" q = false ->
  replaceFirst "/api" EmptyString (q ++ "/api") = q.
Proof.
  induction q as [|c r IH]; intros H; [reflexivity|].
  rewrite includes_unfold in H. apply orb_false_iff in H as [H1 H2].
  change (replaceFirst "/api" "" (String c r ++ "/api"))
    with (if prefix "/api" (String c r ++ "/api")
          then (EmptyString ++
                dropChars (String.length "/api") (String c r ++ "/api"))%string
          else String c (replaceFirst "/api" "" (r ++ "/api"))).
  rewrite (prefix_api_app (String c r)) by first [discriminate | exact H1].
  rewrite (IH H2). reflexivity.
Qed.

(** X15.  The "Change" link gives back the [api] parameter the page was
    opened with, less its final slash, provided the parameter does not
    itself contain "/api". *)
Theorem change_link_round_trip (p hostname : string) :
  p <> EmptyString ->
  includes "/api" (dropFinalSlash p) = false ->
  changeLinkApi (getApiBaseUrl (Some p) hostname) = dropFinalSlash p.
Proof.
  intros Hp Hi. unfold getApiBaseUrl, changeLinkApi.
  assert (Hne : truthy (Some p) = true)
    by (destruct p; [contradiction|reflexivity]).
  rewrite Hne. apply replaceFirst_api. exact Hi.
Qed.

(** Without that proviso the link is wrong: the first "/api" is the one
    removed. *)
Example change_link_first_occurrence :
  changeLinkApi (getApiBaseUrl (Some "http://pi/apiary"%string) EmptyString)
  = "http://piary/api"%string.
Proof. reflexivity. Qed.

(** ** The progress line of the stream check *)

Ltac split_tests tests :=
  unfold testOrder, pushIf;
  destruct (selected "connectivity" tests) eqn:?Hc;
  destruct (selected "stream_info" tests) eqn:?Hi;
  destruct (selected "metadata" tests) eqn:?Hm;
  destruct (selected "player_test" tests) eqn:?Hp;
  destruct (selected "audio_analysis" tests) eqn:?Ha;
  destruct (selected "ad_detection" tests) eqn:?Hd;
  cbn [app].

(** Every test in the progress line is a selected one and has a name in
    the table. *)
Lemma testOrder_named (tests : list string) (t : string) :
  In t (testOrder tests) ->
  In t tests /\
  exists name, testNames t = Some name /\ nonEmpty name = true.
Proof.
  split_tests tests; intros H; simpl in H;
    repeat match goal with
           | H : _ \/ _ |- _ => destruct H as [<-|H]
           | H : False |- _ => contradiction
           end;
    (split; [apply selected_In; assumption|eexists; split; reflexivity]).
Qed.

(** X16.  The progress line lists each selected test once, in a fixed order;
    stream information and metadata are listed only together with
    connectivity, the other tests whenever they are selected; every
    entry is a selected test. *)
Theorem testOrder_sound (tests : list string) :
  NoDup (testOrder tests) /\
  (forall t, In t (testOrder tests) -> In t tests) /\
  (forall t,
     In t ["stream_info"; "metadata"]%string ->
     (In t (testOrder tests) <-> In t tests /\ In "connectivity"%string tests)) /\
  (forall t,
     In t ["connectivity"; "player_test"; "audio_analysis";
           "ad_detection"]%string ->
     (In t (testOrder tests) <-> In t tests)) /\
  (List.length (testOrder tests) <= 6)%nat.
Proof.
  split; [|split; [|split; [|split]]].
  - split_tests tests;
      repeat (constructor; [simpl; intuition discriminate|]); constructor.
  - intros t H. apply (testOrder_named tests t H).
  - intros t Ht. rewrite <- !selected_In.
    simpl in Ht. destruct Ht as [<-|[<-|[]]];
      split_tests tests; simpl; intuition discriminate.
  - intros t Ht. rewrite <- !selected_In.
    simpl in Ht. destruct Ht as [<-|[<-|[<-|[<-|[]]]]];
      split_tests tests; simpl; intuition discriminate.
  - split_tests tests; simpl; lia.
Qed.

(** X17.  The status message names the test at the current index by its name
    in the table, and past the end of the list it reads "Finalizing
    results...". *)
Theorem status_message_names_test (tests : list string) (i : nat) :
  ((i < List.length (testOrder tests))%nat ->
   exists t name,
     nth_error (testOrder tests) i = Some t /\
     In t tests /\
     testNames t = Some name /\
     updateStatusMessage (testOrder tests) i =
       ("Testing " ++ name ++ "...")%string) /\
  ((List.length (testOrder tests) <= i)%nat ->
   updateStatusMessage (testOrder tests) i = "Finalizing results..."%string).
Proof.
  split; intros H.
  - destruct (nth_error (testOrder tests) i) as [t|] eqn:Hn;
      [|apply nth_error_None in Hn; lia].
    destruct (testOrder_named tests t (nth_error_In _ _ Hn))
      as (Hin & name & Hname & Hne).
    exists t, name. unfold updateStatusMessage.
    rewrite Hn, Hname, Hne. auto.
  - unfold updateStatusMessage.
    apply nth_error_None in H. rewrite H. reflexivity.
Qed.

(** ** Colours of the results *)

(** X18.  The health score is shown as Good from 80, as Warning from 60 to
    below 80 and as Critical below 60, and its colour and its mark
    follow the same bounds. *)
Theorem health_score_bands (score : Q) :
  ((80 <= score)%Q ->
   healthStatus score = "Good"%string /\
   healthColor score = "#28a745"%string /\
   healthEmoji score = IconCheck) /\
  ((60 <= score)%Q -> (score < 80)%Q ->
   healthStatus score = "Warning"%string /\
   healthColor score = "#ffc107"%string /\
   healthEmoji score = IconWarning) /\
  ((score < 60)%Q ->
   healthStatus score = "Critical"%string /\
   healthColor score = "#dc3545"%string /\
   healthEmoji score = IconCross).
Proof.
  unfold healthStatus, healthColor, healthEmoji.
  split; [|split].
  - intros H. apply Qle_bool_iff in H. rewrite H. auto.
  - intros H1 H2. apply Qle_bool_iff in H1.
    destruct (Qle_bool 80 score) eqn:E.
    + apply Qle_bool_iff in E. exfalso. exact (Qlt_not_le _ _ H2 E).
    + rewrite H1. auto.
  - intros H.
    destruct (Qle_bool 80 score) eqn:E1.
    + apply Qle_bool_iff in E1. exfalso.
      apply (Qlt_not_le _ _ H). apply (Qle_trans _ 80); [|exact E1].
      unfold Qle. simpl. lia.
    + destruct (Qle_bool 60 score) eqn:E2; [|auto].
      apply Qle_bool_iff in E2. exfalso. exact (Qlt_not_le _ _ H E2).
Qed.

(** X19.  The connectivity line is green with a check mark only for the
    status "success" without an HTTP error; an HTTP status of 400 or
    more makes it red with a cross, whatever the status says; colour
    and mark always go together. *)
Theorem connectivity_colour (status : option string) (httpStatus : option Q) :
  (statusColor status httpStatus = "#28a745"%string <->
   status = Some "success"%string /\ isHttpError httpStatus = false) /\
  (forall n, httpStatus = Some n -> (400 <= n)%Q ->
   statusColor status httpStatus = "#dc3545"%string /\
   statusIcon status httpStatus = IconCross) /\
  (statusColor status httpStatus = "#28a745"%string <->
   statusIcon status httpStatus = IconCheck) /\
  (statusColor status httpStatus = "#dc3545"%string <->
   statusIcon status httpStatus = IconCross).
Proof.
  assert (Hs : isStatus "success" status = true <->
               status = Some "success"%string).
  { unfold isStatus. destruct status as [w|]; [|split; discriminate].
    rewrite String.eqb_eq. split; congruence. }
  unfold statusColor, statusIcon.
  split; [|split; [|split]].
  - split.
    + intros H.
      destruct (isStatus "success" status && negb (isHttpError httpStatus))
        eqn:E.
      * apply andb_true_iff in E as [E1 E2].
        split; [apply Hs; exact E1|apply negb_true_iff; exact E2].
      * destruct (_ || _); discriminate H.
    + intros [H1 H2]. apply Hs in H1. rewrite H1, H2. reflexivity.
  - intros n -> Hn.
    assert (He : isHttpError (Some n) = true).
    { unfold isHttpError. apply Qle_bool_iff in Hn. rewrite Hn.
      destruct (Qeq_bool n 0) eqn:E; [|reflexivity].
      apply Qeq_bool_iff in E. apply Qle_bool_iff in Hn.
      rewrite E in Hn. exfalso. revert Hn. unfold Qle. simpl. lia. }
    rewrite He, andb_false_r, orb_true_r. auto.
  - destruct (_ && _); [split; reflexivity|].
    destruct (_ || _); split; discriminate.
  - destruct (_ && _); [split; discriminate|].
    destruct (_ || _); split; (reflexivity || discriminate).
Qed.

(** * The further properties on concrete runs *)

(** A submission with ad detection selected for 60 seconds. *)
Lemma sample_submission_valid :
  validSubmission
    (mkCheckForm (Some streamA) ["connectivity"; "ad_detection"]%string
       (Some (Some 60)) true).
Proof.
  repeat split; simpl.
  - exists streamA. split; reflexivity.
  - discriminate.
  - intros _ d Hd. injection Hd as <-. exists 60. split; [reflexivity|lia].
Defined.

Lemma nothing_posted_when_idle_witness :
  let s := step absolute 4000 (VisibilityChange true)
             (listening streamA 0 20) in
  active s = false /\
  sent (step absolute 9000 PauseClick s) = sent s.
Proof.
  intros s.
  assert (H1 : active s = false) by reflexivity.
  exact (conj H1 (nothing_posted_when_idle absolute 9000 PauseClick s H1)).
Defined.

Lemma posting_event_closes_session_witness :
  let s := listening streamA 0 20 in
  sent (step absolute 8000 BeforeUnload s) <> sent s /\
  exists t u a k,
    listeningStartTime s = Some t /\
    currentStreamUrl s = Some u /\
    closeAction BeforeUnload = Some (a, k) /\
    sent (step absolute 8000 BeforeUnload s) =
      sent s ++ [sessionRecord u t 8000 a k] /\
    (k = true <-> BeforeUnload = BeforeUnload \/
                  BeforeUnload = VisibilityChange true).
Proof.
  intros s.
  assert (H1 : sent (step absolute 8000 BeforeUnload s) <> sent s)
    by (vm_compute; discriminate).
  exact (conj H1 (posting_event_closes_session absolute 8000 BeforeUnload s H1)).
Defined.



Lemma stop_makes_next_play_fresh_witness :
  let s := listening streamA 0 20 in
  let settled := [(5100, Settle 0 (Fulfilled false)); (5200, Settle 0 Rejected)] in
  let stopped := run absolute ((5000, StopClick) :: settled) s in
  let replayed := step absolute 7000 (PlayClick streamA) stopped in
  (listeningStartTime s = None \/ truthy (currentStreamUrl s) = true) /\
  Settles (List.length (pending s)) settled /\
  blank streamA = false /\
  currentPlayingUrl stopped = None /\
  primCalls replayed =
    primCalls stopped ++ [CallSetSrc (trim streamA); CallPlay] /\
  listeningStartTime replayed = Some 7000.
Proof.
  intros s settled stopped replayed.
  assert (H1 : listeningStartTime s = None \/
               truthy (currentStreamUrl s) = true) by (right; reflexivity).
  assert (H2 : Settles (List.length (pending s)) settled)
    by (apply SettlesAnswered).
  assert (H3 : blank streamA = false) by reflexivity.
  destruct (stop_makes_next_play_fresh absolute 5000 7000 streamA s settled
              H1 H2 H3) as (H4 & _ & _ & _ & _ & _ & H5 & H6 & _).
  exact (conj H1 (conj H2 (conj H3 (conj H4 (conj H5 H6))))).
Defined.


Lemma hidden_page_stops_tracking_only_witness :
  let s := listening streamA 0 20 in
  let hid := step absolute 4000 (VisibilityChange true) s in
  let back := step absolute 6000 (VisibilityChange false) hid in
  listeningStartTime s = Some 0 /\
  currentStreamUrl s = Some streamA /\
  nonEmpty streamA = true /\
  listeningStartTime hid = None /\
  primCalls hid = primCalls s /\
  back = hid /\
  sent (step absolute 9000 PauseClick back) = sent hid.
Proof.
  intros s hid back.
  assert (H1 : listeningStartTime s = Some 0) by reflexivity.
  assert (H2 : currentStreamUrl s = Some streamA) by reflexivity.
  assert (H3 : nonEmpty streamA = true) by reflexivity.
  destruct (hidden_page_stops_tracking_only absolute 4000 6000 9000 s 0
              streamA H1 H2 H3)
    as (H4 & _ & H5 & _ & _ & _ & H6 & H7 & _).
  exact (conj H1 (conj H2 (conj H3 (conj H4 (conj H5
           (conj H6 (H7 PauseClick))))))).
Defined.

Lemma check_completion_reenables_submit_witness :
  let form :=
    mkCheckForm (Some streamA) ["connectivity"; "ad_detection"]%string
      (Some (Some 60)) true in
  let s := listening streamA 0 20 in
  let settled := [(9000, Settle 0 Rejected)] in
  let done := run absolute ((3000, CheckSubmit form) :: settled) s in
  validSubmission form /\
  Settles (List.length (pending s)) settled /\
  submitDisabled (step absolute 3000 (CheckSubmit form) s) = true /\
  submitDisabled done = false /\
  pending done = pending s.
Proof.
  intros form s settled done.
  assert (H2 : Settles (List.length (pending s)) settled)
    by (apply SettlesFailed).
  destruct (check_completion_reenables_submit absolute 3000 form s settled
              sample_submission_valid H2) as (H3 & H4 & _).
  exact (conj sample_submission_valid (conj H2 (conj eq_refl (conj H3 H4)))).
Defined.

Lemma check_reverts_volume_and_mute_witness :
  let form :=
    mkCheckForm (Some streamA) ["connectivity"; "ad_detection"]%string
      (Some (Some 60)) true in
  let s := listening streamA 0 20 in
  let settled := [(9000, Settle 0 (Fulfilled true)); (9100, Settle 0 Rejected)] in
  let changed :=
    run absolute
      [(3000, CheckSubmit form); (4000, VolumeInput (3 # 10)); (5000, MuteClick)]
      s in
  let done := run absolute settled changed in
  validSubmission form /\
  audible (streamPlayer s) /\
  Settles (List.length (pending s)) settled /\
  volume (streamPlayer changed) = (3 # 10)%Q /\
  muted (streamPlayer changed) = true /\
  volume (streamPlayer done) = 1%Q /\
  muted (streamPlayer done) = false.
Proof.
  intros form s settled changed done.
  assert (H1 : audible (streamPlayer s)) by (repeat split).
  assert (H2 : Settles (List.length (pending s)) settled)
    by (apply SettlesAnswered).
  destruct (check_reverts_volume_and_mute absolute 3000 4000 5000 form
              (3 # 10) s settled sample_submission_valid H1 H2)
    as (H3 & H4 & H5 & H6 & _).
  exact (conj sample_submission_valid (conj H1 (conj H2
           (conj H3 (conj H4 (conj H5 H6)))))).
Defined.

Lemma check_resumes_paused_playback_witness :
  let form :=
    mkCheckForm (Some streamA) ["connectivity"; "ad_detection"]%string
      (Some (Some 60)) true in
  let s := listening streamA 0 20 in
  let settled := [(9000, Settle 0 Rejected)] in
  let halted :=
    run absolute [(3000, CheckSubmit form); (4000, NativePause)] s in
  let done := run absolute settled halted in
  validSubmission form /\
  audible (streamPlayer s) /\
  Settles (List.length (pending s)) settled /\
  paused (streamPlayer halted) = true /\
  paused (streamPlayer done) = false /\
  primCalls done =
    primCalls s ++ [CallSetVolume 1; CallSetMuted false; CallPlay].
Proof.
  intros form s settled halted done.
  assert (H1 : audible (streamPlayer s)) by (repeat split).
  assert (H2 : Settles (List.length (pending s)) settled)
    by (apply SettlesFailed).
  destruct (check_resumes_paused_playback absolute 3000 4000 form s settled
              sample_submission_valid H1 H2) as (H3 & _ & H4 & H5 & _).
  exact (conj sample_submission_valid (conj H1 (conj H2
           (conj H3 (conj H4 H5))))).
Defined.

(** Two addresses with the same file name. *)
Lemma srcMatches_by_last_segment_witness :
  let a := mkAudio streamB false false 0 1 false None in
  let snap := mkSnapshot true streamA 0 1 false in
  includes "/" "stream.mp3" = false /\
  currentSrc snap = ("http://a" ++ "/" ++ "stream.mp3")%string /\
  src a = ("http://b/" ++ "stream.mp3" ++ "")%string /\
  src a <> currentSrc snap /\
  srcMatches a snap = true.
Proof.
  intros a snap.
  assert (H1 : includes "/" "stream.mp3" = false) by reflexivity.
  assert (H2 : currentSrc snap = ("http://a" ++ "/" ++ "stream.mp3")%string)
    by reflexivity.
  assert (H3 : src a = ("http://b/" ++ "stream.mp3" ++ "")%string)
    by reflexivity.
  assert (H4 : src a <> currentSrc snap) by (vm_compute; discriminate).
  exact (conj H1 (conj H2 (conj H3 (conj H4
           (srcMatches_by_last_segment a snap "http://a" "stream.mp3"
              "http://b/" "" H1 H2 H3))))).
Defined.

Lemma change_link_round_trip_witness :
  "http://192.168.1.20:5000/"%string <> EmptyString /\
  includes "/api" (dropFinalSlash "http://192.168.1.20:5000/") = false /\
  changeLinkApi
    (getApiBaseUrl (Some "http://192.168.1.20:5000/"%string) "example.org")
  = "http://192.168.1.20:5000"%string.
Proof.
  assert (H1 : "http://192.168.1.20:5000/"%string <> EmptyString)
    by discriminate.
  assert (H2 : includes "/api" (dropFinalSlash "http://192.168.1.20:5000/")
               = false) by reflexivity.
  exact (conj H1 (conj H2
           (change_link_round_trip "http://192.168.1.20:5000/" "example.org"
              H1 H2))).
Defined.
